(** * Verifiable inference: proof lifecycle of the two verification strategies

    A shallow embedding of [src/index.ts] (the transcript-proof client
    [VerifiableClaude]), [src/eigenai.ts] (the re-execution client
    [VerifiableEigenAI]) and [src/types.ts].

    - JavaScript values that reach the code untyped (the result of
      [JSON.parse], the proof bundle returned by the witness network) are
      values of [JsVal], with the coercions the code relies on
      (truthiness for [||] and [!], nullishness for [??] and [?.], property
      access that throws a [TypeError] on [null] and [undefined]).
    - An [async] function is a value of [Promise]: a tree whose nodes are
      the awaited external calls (witness network, proof verification,
      inference provider, [Math.random], [Date.now]) and whose leaves are a
      returned value or a thrown one.  [try]/[catch] is [Promise_catch].
    - The built-ins [JSON.parse], [JSON.stringify] and the conversion of a
      number to a string are the fields of the class [JsRuntime].

    The demo scripts and the demo server are not modelled. *)

From Stdlib Require Import String Ascii List ZArith QArith Qround Bool Lia Lqa DecimalString.
From ExtLib Require Import Structures.Monad Structures.MonadExc.
Import ListNotations.
Import MonadNotation.

Local Open Scope string_scope.
Local Open Scope monad_scope.

Set Implicit Arguments.
Set Warnings "-register-all".

(** ** JavaScript values *)

Module Js.

(** A JavaScript number: a finite double is read as the rational it
    denotes; the one arithmetic operation of the code, the product in
    [generateSeed], is rounded to the nearest double by [round_double]. *)
Inductive number : Type :=
| NaN
| Infinity (negative : bool)
| Finite (q : Q).

Definition num_of_Z (z : Z) : number := Finite (inject_Z z).

(** [2^k] *)
Definition pow2 (k : Z) : Q :=
  if (0 <=? k)%Z then inject_Z (2 ^ k) else (1 / inject_Z (2 ^ (- k)))%Q.

(** The integer nearest to [s], the even one of the two when [s] is half
    way. *)
Definition nearest_even (s : Q) : Z :=
  let f := Qfloor s in
  match Qcompare (s - inject_Z f) (1 # 2) with
  | Lt => f
  | Gt => (f + 1)%Z
  | Eq => if Z.even f then f else (f + 1)%Z
  end.

(** For [x > 0], the exponent [e] with [2^e <= x < 2^(e+1)]. *)
Definition binade (x : Q) : Z :=
  if Qle_bool 1 x then Z.log2 (Qfloor x) else (- Z.log2_up (Qceiling (/ x)%Q))%Z.

(** The unit in the last place of a double in the binade of [x]: 53
    significant bits, and [2^-1074] for the subnormal numbers. *)
Definition ulp_exponent (x : Q) : Z := Z.max (binade x - 52) (-1074).

(** Rounding of a positive real to binary64, to nearest, ties to even. *)
Definition round_positive (x : Q) : number :=
  let u := ulp_exponent x in
  let v := (inject_Z (nearest_even (x / pow2 u)) * pow2 u)%Q in
  if Qle_bool (pow2 1024) v then Infinity false else Finite v.

Definition negate (n : number) : number :=
  match n with
  | NaN => NaN
  | Infinity s => Infinity (negb s)
  | Finite q => Finite (- q)%Q
  end.

(** The double nearest to the real [x]: what an arithmetic operation
    whose exact result is [x] returns. *)
Definition round_double (x : Q) : number :=
  match Qcompare x 0 with
  | Eq => Finite 0
  | Gt => round_positive x
  | Lt => negate (round_positive (- x)%Q)
  end.

Inductive JsVal : Type :=
| JUndefined
| JNull
| JBool (b : bool)
| JNum (n : number)
| JStr (s : string)
| JArr (items : list JsVal)
| JObj (fields : list (string * JsVal)).

(** What [throw] carries: an [Error] instance (with its [name] and
    [message]) or any other value. *)
Inductive Thrown : Type :=
| ThrowError (name message : string)
| ThrowValue (v : JsVal).

Definition Error (message : string) : Thrown := ThrowError "Error" message.
Definition TypeError (message : string) : Thrown := ThrowError "TypeError" message.
Definition SyntaxError (message : string) : Thrown := ThrowError "SyntaxError" message.

(** The completion of a synchronous computation, or of an awaited one. *)
Inductive Outcome (A : Type) : Type :=
| Ok (a : A)
| Threw (e : Thrown).
Arguments Ok {A} a.
Arguments Threw {A} e.

#[global] Instance Monad_Outcome : Monad Outcome :=
  {| ret := fun _ a => Ok a;
     bind := fun _ _ c k => match c with Ok a => k a | Threw e => Threw e end |}.

#[global] Instance Exc_Outcome : MonadExc Thrown Outcome :=
  {| raise := fun _ e => Threw e;
     catch := fun _ c h => match c with Ok a => Ok a | Threw e => h e end |}.

(** [ToBoolean] on numbers: [0], [-0] and [NaN] are falsy. *)
Definition num_truthy (n : number) : bool :=
  match n with
  | NaN => false
  | Infinity _ => true
  | Finite q => negb (Qeq_bool q 0)
  end.

Definition str_truthy (s : string) : bool :=
  match s with EmptyString => false | String _ _ => true end.

(** [ToBoolean]: what [!v], [v || d] and [if (v)] test. *)
Definition truthy (v : JsVal) : bool :=
  match v with
  | JUndefined | JNull => false
  | JBool b => b
  | JNum n => num_truthy n
  | JStr s => str_truthy s
  | JArr _ | JObj _ => true
  end.

(** What [v ?? d] and [v?.p] test. *)
Definition nullish (v : JsVal) : bool :=
  match v with JUndefined | JNull => true | _ => false end.

(** [v || d] *)
Definition or_else (v d : JsVal) : JsVal := if truthy v then v else d.

(** [v ?? d] *)
Definition coalesce (v d : JsVal) : JsVal := if nullish v then d else v.

Fixpoint lookup (k : string) (fields : list (string * JsVal)) : JsVal :=
  match fields with
  | [] => JUndefined
  | (k', v) :: rest => if String.eqb k k' then v else lookup k rest
  end.

Definition type_name (v : JsVal) : string :=
  match v with JNull => "null" | _ => "undefined" end.

(** [v.k] for the property names the code reads ([content], [type],
    [text], [model], [seed], [requestParams], [messages], [maxTokens],
    [temperature], [role], [extractedParameterValues], [response]): none of
    them is a property of a primitive wrapper or of [Array.prototype], so
    the access yields [undefined] on every value that is not an object, and
    throws on [null] and [undefined]. *)
Definition get (v : JsVal) (k : string) : Outcome JsVal :=
  match v with
  | JUndefined | JNull =>
      Threw (TypeError ("Cannot read properties of " ++ type_name v
                          ++ " (reading '" ++ k ++ "')"))
  | JObj fields => Ok (lookup k fields)
  | _ => Ok JUndefined
  end.

(** [v?.k] *)
Definition get_opt (v : JsVal) (k : string) : Outcome JsVal :=
  if nullish v then Ok JUndefined else get v k.

(** [v === s] for a string [s]. *)
Definition strict_eq_str (v : JsVal) (s : string) : bool :=
  match v with JStr t => String.eqb t s | _ => false end.

Definition opt_js {A : Type} (f : A -> JsVal) (o : option A) : JsVal :=
  match o with Some a => f a | None => JUndefined end.

(** An object literal in which a key whose value is absent is left out. *)
Fixpoint obj_fields (kvs : list (string * option JsVal)) : list (string * JsVal) :=
  match kvs with
  | [] => []
  | (k, Some v) :: rest => (k, v) :: obj_fields rest
  | (_, None) :: rest => obj_fields rest
  end.

(** The built-ins of the language the code calls. *)
Class JsRuntime : Type :=
  { (** [JSON.parse] on a string *)
    JSON_parse_string : string -> Outcome JsVal;
    (** [JSON.stringify] on a value that is not [undefined] *)
    JSON_stringify : JsVal -> string;
    (** [Number.prototype.toString] *)
    Number_toString : number -> string }.

Section Coercions.
Context {RT : JsRuntime}.

Definition join_item (to_string : JsVal -> string) (v : JsVal) : string :=
  if nullish v then "" else to_string v.

(** [ToString], as applied by [JSON.parse] to its argument. *)
Fixpoint ToString (v : JsVal) : string :=
  match v with
  | JUndefined => "undefined"
  | JNull => "null"
  | JBool true => "true"
  | JBool false => "false"
  | JNum n => Number_toString n
  | JStr s => s
  | JArr items => String.concat "," (map (join_item ToString) items)
  | JObj _ => "[object Object]"
  end.

(** [JSON.parse(v)] *)
Definition JSON_parse (v : JsVal) : Outcome JsVal :=
  JSON_parse_string (ToString v).
End Coercions.

End Js.
Export Js.

(** ** Asynchronous computations and the outside world *)

(** The message shape of the chat-completions API as the client sends it;
    the fields are untyped because [verifySerializedProof] fills them from
    parsed JSON. *)
Record ChatMessage : Type :=
  { cm_role : JsVal; cm_content : JsVal }.

(** Argument of [client.chat.completions.create]. *)
Record ChatRequest : Type :=
  { cr_model : JsVal;
    cr_messages : list ChatMessage;
    cr_max_tokens : JsVal;
    cr_temperature : JsVal;
    cr_seed : JsVal;
    cr_stop : JsVal }.

(** The part of the provider's answer the code reads:
    [response.id] and [response.choices[i].message.content]
    (typed [string | null] by the client library). *)
Record ChoiceMessage : Type := { cmsg_content : option string }.
Record Choice : Type := { ch_message : option ChoiceMessage }.
Record ChatResponse : Type := { resp_id : string; resp_choices : list Choice }.

(** [new OpenAI({ apiKey, baseURL })] *)
Record OpenAI : Type := { oa_apiKey : string; oa_baseURL : string }.

(** [new ReclaimClient(appId, appSecret)] *)
Record ReclaimClient : Type := { rc_appId : string; rc_appSecret : string }.

(** The three arguments of [reclaimClient.zkFetch]. *)
Record ZkFetchArgs : Type :=
  { zk_url : string;
    zk_method : string;
    zk_headers : list (string * string);
    zk_body : string;
    zk_secret_headers : list (string * string);
    zk_responseMatches : list (string * string) }.

(** The collaborators an [async] function of the library awaits: the
    witness network, the proof verifier, the inference provider.  Each may
    throw. *)
Inductive Request : Type :=
| zkFetch (client : ReclaimClient) (args : ZkFetchArgs)
| verifyProof (proof : JsVal)
| chat_completions_create (client : OpenAI) (req : ChatRequest).

Definition Answer (r : Request) : Type :=
  match r with
  | zkFetch _ _ => JsVal
  | verifyProof _ => bool
  | chat_completions_create _ _ => ChatResponse
  end.

(** The built-ins that read the environment; they return a number and do
    not throw. *)
Inductive Builtin : Type := Math_random | Date_now.

Inductive Promise (A : Type) : Type :=
| Resolve (a : A)
| Reject (e : Thrown)
| Await (r : Request) (k : Outcome (Answer r) -> Promise A)
| Ask (b : Builtin) (k : number -> Promise A).
Arguments Resolve {A} a.
Arguments Reject {A} e.
Arguments Await {A} r k.
Arguments Ask {A} b k.

Fixpoint Promise_bind {A B : Type} (p : Promise A) (f : A -> Promise B) : Promise B :=
  match p with
  | Resolve a => f a
  | Reject e => Reject e
  | Await r k => Await r (fun o => Promise_bind (k o) f)
  | Ask b k => Ask b (fun n => Promise_bind (k n) f)
  end.

(** [try { p } catch (e) { h e }] *)
Fixpoint Promise_catch {A : Type} (p : Promise A) (h : Thrown -> Promise A) : Promise A :=
  match p with
  | Resolve a => Resolve a
  | Reject e => h e
  | Await r k => Await r (fun o => Promise_catch (k o) h)
  | Ask b k => Ask b (fun n => Promise_catch (k n) h)
  end.

#[global] Instance Monad_Promise : Monad Promise :=
  {| ret := fun _ a => Resolve a; bind := fun _ _ => Promise_bind |}.

#[global] Instance Exc_Promise : MonadExc Thrown Promise :=
  {| raise := fun _ e => Reject e; catch := fun _ => Promise_catch |}.

(** A synchronous step inside an [async] function. *)
Definition sync {A : Type} (o : Outcome A) : Promise A :=
  match o with Ok a => Resolve a | Threw e => Reject e end.

(** [await r] *)
Definition await (r : Request) : Promise (Answer r) := Await r sync.

(** [Math.random()], [Date.now()] *)
Definition ask (b : Builtin) : Promise number := Ask b Resolve.

(** A world answers every call. *)
Record World : Type :=
  { answer : forall r : Request, Outcome (Answer r);
    builtin : Builtin -> number }.

Inductive Call : Type :=
| Awaited (r : Request)
| Asked (b : Builtin).

(** Running a computation in a world: the calls made, in order, and the
    completion. *)
Fixpoint exec {A : Type} (w : World) (p : Promise A) : list Call * Outcome A :=
  match p with
  | Resolve a => ([], Ok a)
  | Reject e => ([], Threw e)
  | Await r k => let (calls, o) := exec w (k (answer w r)) in (Awaited r :: calls, o)
  | Ask b k => let (calls, o) := exec w (k (builtin w b)) in (Asked b :: calls, o)
  end.

Definition calls_of {A : Type} (w : World) (p : Promise A) : list Call := fst (exec w p).
Definition completion {A : Type} (w : World) (p : Promise A) : Outcome A := snd (exec w p).

(** The requests that went out to the inference provider or to the
    witness network. *)
Fixpoint dispatches (calls : list Call) : list Request :=
  match calls with
  | [] => []
  | Awaited (zkFetch c a) :: rest => zkFetch c a :: dispatches rest
  | Awaited (chat_completions_create c q) :: rest =>
      chat_completions_create c q :: dispatches rest
  | _ :: rest => dispatches rest
  end.

Definition dispatched {A : Type} (w : World) (p : Promise A) : list Request :=
  dispatches (calls_of w p).

(** [fulfils P p]: whatever the outside world answers, [p] returns, and
    the value it returns satisfies [P]. *)
Fixpoint fulfils {A : Type} (P : A -> Prop) (p : Promise A) : Prop :=
  match p with
  | Resolve a => P a
  | Reject _ => False
  | Await r k => forall o, fulfils P (k o)
  | Ask b k => forall n, fulfils P (k n)
  end.

(** [error instanceof Error ? error.message : fallback] *)
Definition caught_message (fallback : string) (error : Thrown) : string :=
  match error with
  | ThrowError _ message => message
  | ThrowValue _ => fallback
  end.

(** ** The data model ([src/types.ts]) *)

Inductive Role : Type := user | assistant | system.

Definition role_string (r : Role) : string :=
  match r with user => "user" | assistant => "assistant" | system => "system" end.

Module Message.
Record t : Type := { role : Role; content : string }.
End Message.

(** [VerificationResult], together with the two optional fields by which
    [EigenAIVerificationResult] extends it: a result of the transcript-proof
    client leaves them absent. *)
Record VerificationResult : Type :=
  { isValid : bool;
    verifiedEndpoint : option string;
    error : option string;
    outputMatches : option bool;
    reExecutedOutput : option string }.

Inductive VerificationProvider : Type := reclaim | eigenai.

Module VerifiableClaudeConfig.
Record t : Type :=
  { apiKey : string;
    reclaimAppId : string;
    reclaimAppSecret : string;
    endpoint : option string }.
End VerifiableClaudeConfig.

Module ClaudeGenerateOptions.
Record t : Type :=
  { model : option string;
    messages : option (list Message.t);
    prompt : option string;
    system : option string;
    maxTokens : option number;
    temperature : option number;
    stopSequences : option (list string) }.
End ClaudeGenerateOptions.

(** [text] is declared a string; the value [generate] stores there is
    whatever the provider put in the [text] property, so it is a [JsVal]. *)
Module VerifiableClaudeResult.
Record t : Type :=
  { text : JsVal;
    proof : JsVal;
    timestamp : number;
    model : string;
    provider : VerificationProvider;
    rawResponse : JsVal }.
End VerifiableClaudeResult.

Module SerializedClaudeProof.
Record t : Type :=
  { proofJson : string;
    text : JsVal;
    timestamp : number;
    model : string;
    provider : VerificationProvider }.
End SerializedClaudeProof.

Module EigenAIConfig.
Record t : Type := { apiKey : string; endpoint : option string }.
End EigenAIConfig.

Module EigenAIGenerateOptions.
Record t : Type :=
  { model : option string;
    messages : option (list Message.t);
    prompt : option string;
    system : option string;
    maxTokens : option number;
    temperature : option number;
    seed : option number;
    stop : option (list string) }.
End EigenAIGenerateOptions.

Module RequestParams.
Record t : Type :=
  { messages : list Message.t;
    temperature : option number;
    maxTokens : option number }.
End RequestParams.

Module EigenAIAttestation.
Record t : Type :=
  { seed : number;
    model : string;
    requestId : option string;
    signatures : option (list string);
    requestParams : RequestParams.t }.
End EigenAIAttestation.

Module EigenAIResult.
Record t : Type :=
  { text : string;
    attestation : EigenAIAttestation.t;
    timestamp : number;
    model : string;
    provider : VerificationProvider;
    rawResponse : ChatResponse }.
End EigenAIResult.

Module SerializedEigenAIProof.
Record t : Type :=
  { attestationJson : string;
    text : string;
    timestamp : number;
    model : string;
    provider : VerificationProvider }.
End SerializedEigenAIProof.

(** [SerializedProof = SerializedClaudeProof | SerializedEigenAIProof].
    The static type of each [verifySerializedProof] names its own variant;
    at run time the argument is whatever object the third party sends, so
    both verifiers are defined on the union, and reading a property the
    object does not have yields [undefined]. *)
Inductive SerializedProof : Type :=
| OfClaude (s : SerializedClaudeProof.t)
| OfEigenAI (s : SerializedEigenAIProof.t).

Definition serialized_proofJson (s : SerializedProof) : JsVal :=
  match s with
  | OfClaude c => JStr (SerializedClaudeProof.proofJson c)
  | OfEigenAI _ => JUndefined
  end.

Definition serialized_attestationJson (s : SerializedProof) : JsVal :=
  match s with
  | OfClaude _ => JUndefined
  | OfEigenAI e => JStr (SerializedEigenAIProof.attestationJson e)
  end.

Definition serialized_text (s : SerializedProof) : JsVal :=
  match s with
  | OfClaude c => SerializedClaudeProof.text c
  | OfEigenAI e => JStr (SerializedEigenAIProof.text e)
  end.

Definition serialized_provider (s : SerializedProof) : VerificationProvider :=
  match s with
  | OfClaude c => SerializedClaudeProof.provider c
  | OfEigenAI e => SerializedEigenAIProof.provider e
  end.

(** [VerifiableResult = VerifiableClaudeResult | EigenAIResult] *)
Inductive VerifiableResult : Type :=
| ClaudeResult (r : VerifiableClaudeResult.t)
| EigenResult (r : EigenAIResult.t).

Definition result_provider (result : VerifiableResult) : VerificationProvider :=
  match result with
  | ClaudeResult r => VerifiableClaudeResult.provider r
  | EigenResult r => EigenAIResult.provider r
  end.

Definition provider_eqb (a b : VerificationProvider) : bool :=
  match a, b with
  | reclaim, reclaim | eigenai, eigenai => true
  | _, _ => false
  end.

(** [result.provider === "reclaim"] *)
Definition isClaudeResult (result : VerifiableResult) : bool :=
  provider_eqb (result_provider result) reclaim.

(** [result.provider === "eigenai"] *)
Definition isEigenAIResult (result : VerifiableResult) : bool :=
  provider_eqb (result_provider result) eigenai.

(** The [options] argument of [chat], a [Partial<ClaudeGenerateOptions>],
    as the object spread [{ prompt, ...options }] sees it: [prompt] is
    [None] when the object has no [prompt] key, and [Some v] when it has
    one, whose value [v] may be [undefined].  For the other keys a missing
    key and an [undefined] value read alike. *)
Module ClaudeChatOptions.
Record t : Type :=
  { model : option string;
    messages : option (list Message.t);
    prompt : option (option string);
    system : option string;
    maxTokens : option number;
    temperature : option number;
    stopSequences : option (list string) }.
End ClaudeChatOptions.

(** The same for [Partial<EigenAIGenerateOptions>]. *)
Module EigenAIChatOptions.
Record t : Type :=
  { model : option string;
    messages : option (list Message.t);
    prompt : option (option string);
    system : option string;
    maxTokens : option number;
    temperature : option number;
    seed : option number;
    stop : option (list string) }.
End EigenAIChatOptions.

(** The [prompt] key of [{ prompt, ...options }]. *)
Definition spread_prompt (prompt : string) (own : option (option string)) : option string :=
  match own with
  | None => Some prompt
  | Some v => v
  end.

(** The run-time object behind a typed [Message]. *)
Definition js_of_message (m : Message.t) : JsVal :=
  JObj [("role", JStr (role_string (Message.role m)));
        ("content", JStr (Message.content m))].

(** [a || d] on an optional string, an optional number. *)
Definition string_or (a : option string) (d : string) : string :=
  match a with
  | Some s => if str_truthy s then s else d
  | None => d
  end.

Definition number_or (a : option number) (d : number) : number :=
  match a with
  | Some n => if num_truthy n then n else d
  | None => d
  end.

(** [a ?? d] on an optional number. *)
Definition number_coalesce (a : option number) (d : number) : number :=
  match a with Some n => n | None => d end.

(** The double quote, for the string constants that contain one. *)
Definition dq : string := String (ascii_of_nat 34) EmptyString.

(** ** The transcript-proof client ([src/index.ts]) *)

Module VerifiableClaude.

Definition ANTHROPIC_API_ENDPOINT : string := "https://api.anthropic.com/v1".
Definition ANTHROPIC_VERSION : string := "2023-06-01".

(** The private fields of an instance. *)
Record t : Type :=
  { reclaimClient : ReclaimClient;
    config : VerifiableClaudeConfig.t;
    endpoint : string }.

Definition constructor (config : VerifiableClaudeConfig.t) : t :=
  {| config := config;
     endpoint := string_or (VerifiableClaudeConfig.endpoint config) ANTHROPIC_API_ENDPOINT;
     reclaimClient :=
       {| rc_appId := VerifiableClaudeConfig.reclaimAppId config;
          rc_appSecret := VerifiableClaudeConfig.reclaimAppSecret config |} |}.

(** [createVerifiableClaude] *)
Definition createVerifiableClaude (config : VerifiableClaudeConfig.t) : t :=
  constructor config.

Definition responseRegex : string :=
  "(?<response>\{[\s\S]*?" ++ dq ++ "id" ++ dq ++ ":\s*" ++ dq ++ "msg_[^"
    ++ dq ++ "]*" ++ dq ++ "[\s\S]*\})".

(** The [messages] array of [generate]: [None] is the branch that throws. *)
Definition build_messages (options : ClaudeGenerateOptions.t) : option (list Message.t) :=
  match ClaudeGenerateOptions.messages options with
  | Some ms => Some ms
  | None =>
      match ClaudeGenerateOptions.prompt options with
      | Some p =>
          if str_truthy p then Some [{| Message.role := user; Message.content := p |}]
          else None
      | None => None
      end
  end.

(** The request body; [temperature] has a default, so its key is always
    set. *)
Definition build_body (options : ClaudeGenerateOptions.t) (messages : list Message.t) : JsVal :=
  let model := string_or (ClaudeGenerateOptions.model options) "claude-3-5-sonnet-20241022" in
  let maxTokens := number_or (ClaudeGenerateOptions.maxTokens options) (num_of_Z 1024) in
  let temperature := number_coalesce (ClaudeGenerateOptions.temperature options) (num_of_Z 1) in
  JObj (obj_fields
    [("model", Some (JStr model));
     ("max_tokens", Some (JNum maxTokens));
     ("messages", Some (JArr (map js_of_message messages)));
     ("system",
        match ClaudeGenerateOptions.system options with
        | Some s => if str_truthy s then Some (JStr s) else None
        | None => None
        end);
     ("temperature", Some (JNum temperature));
     ("stop_sequences",
        match ClaudeGenerateOptions.stopSequences options with
        | Some (s :: rest) => Some (JArr (map JStr (s :: rest)))
        | _ => None
        end)]).

(** [content.find((item) => item.type === "text")] *)
Fixpoint find_text (content : list JsVal) : Outcome JsVal :=
  match content with
  | [] => Ok JUndefined
  | item :: rest =>
      ty <- get item "type" ;;
      if strict_eq_str ty "text" then ret item else find_text rest
  end.

(** The text of Claude's response format. *)
Definition extract_text (response : JsVal) : Outcome JsVal :=
  content <- get response "content" ;;
  match content with
  | JArr items =>
      textContent <- find_text items ;;
      t <- get_opt textContent "text" ;;
      ret (or_else t (JStr ""))
  | _ => ret (JStr "")
  end.

(** [proof.extractedParameterValues?.response] *)
Definition extracted_response (proof : JsVal) : Outcome JsVal :=
  extractedParameterValues <- get proof "extractedParameterValues" ;;
  get_opt extractedParameterValues "response".

Section Methods.
Context {RT : JsRuntime}.

Definition zkFetch_args (self : t) (body : JsVal) : ZkFetchArgs :=
  {| zk_url := endpoint self ++ "/messages";
     zk_method := "POST";
     zk_headers := [("Content-Type", "application/json")];
     zk_body := JSON_stringify body;
     zk_secret_headers :=
       [("anthropic-version", ANTHROPIC_VERSION);
        ("x-api-key", VerifiableClaudeConfig.apiKey (config self))];
     zk_responseMatches := [("regex", responseRegex)] |}.

Definition generate (self : t) (options : ClaudeGenerateOptions.t)
  : Promise VerifiableClaudeResult.t :=
  let model := string_or (ClaudeGenerateOptions.model options) "claude-3-5-sonnet-20241022" in
  match build_messages options with
  | None => raise (Error "Either 'messages' or 'prompt' must be provided")
  | Some messages =>
      let body := build_body options messages in
      catch
        (proof <- await (zkFetch (reclaimClient self) (zkFetch_args self body)) ;;
         if negb (truthy proof)
         then raise (Error "Failed to generate proof - no proof returned")
         else
           responseJson <- sync (extracted_response proof) ;;
           if negb (truthy responseJson)
           then raise (Error "Failed to extract response from proof")
           else
             response <- sync (JSON_parse responseJson) ;;
             text <- sync (extract_text response) ;;
             now <- ask Date_now ;;
             ret {| VerifiableClaudeResult.text := text;
                    VerifiableClaudeResult.proof := proof;
                    VerifiableClaudeResult.timestamp := now;
                    VerifiableClaudeResult.model := model;
                    VerifiableClaudeResult.provider := reclaim;
                    VerifiableClaudeResult.rawResponse := response |})
        (fun error =>
           raise (Error ("Verifiable generation failed: "
                           ++ caught_message "Unknown error occurred" error)))
  end.

Definition verify (self : t) (result : VerifiableClaudeResult.t)
  : Promise VerificationResult :=
  catch
    (isValid <- await (verifyProof (VerifiableClaudeResult.proof result)) ;;
     ret {| isValid := isValid;
            verifiedEndpoint :=
              if isValid then Some (endpoint self ++ "/messages") else None;
            error := None;
            outputMatches := None;
            reExecutedOutput := None |})
    (fun error =>
       ret {| isValid := false;
              verifiedEndpoint := None;
              error := Some (caught_message "Verification failed" error);
              outputMatches := None;
              reExecutedOutput := None |}).

(** A static method: it has no instance, hence no configuration. *)
Definition verifySerializedProof (serialized : SerializedProof)
  : Promise VerificationResult :=
  catch
    (proof <- sync (JSON_parse (serialized_proofJson serialized)) ;;
     isValid <- await (verifyProof proof) ;;
     ret {| isValid := isValid;
            verifiedEndpoint :=
              if isValid then Some (ANTHROPIC_API_ENDPOINT ++ "/messages") else None;
            error := None;
            outputMatches := None;
            reExecutedOutput := None |})
    (fun error =>
       ret {| isValid := false;
              verifiedEndpoint := None;
              error := Some (caught_message "Verification failed" error);
              outputMatches := None;
              reExecutedOutput := None |}).

Definition serializeResult (self : t) (result : VerifiableClaudeResult.t)
  : SerializedClaudeProof.t :=
  {| SerializedClaudeProof.proofJson := JSON_stringify (VerifiableClaudeResult.proof result);
     SerializedClaudeProof.text := VerifiableClaudeResult.text result;
     SerializedClaudeProof.timestamp := VerifiableClaudeResult.timestamp result;
     SerializedClaudeProof.model := VerifiableClaudeResult.model result;
     SerializedClaudeProof.provider := reclaim |}.

(** [chat(prompt, options)]: [generate({ prompt, ...options })] *)
Definition chat (self : t) (prompt : string) (options : option ClaudeChatOptions.t)
  : Promise VerifiableClaudeResult.t :=
  generate self
    match options with
    | None =>
        {| ClaudeGenerateOptions.model := None;
           ClaudeGenerateOptions.messages := None;
           ClaudeGenerateOptions.prompt := Some prompt;
           ClaudeGenerateOptions.system := None;
           ClaudeGenerateOptions.maxTokens := None;
           ClaudeGenerateOptions.temperature := None;
           ClaudeGenerateOptions.stopSequences := None |}
    | Some o =>
        {| ClaudeGenerateOptions.model := ClaudeChatOptions.model o;
           ClaudeGenerateOptions.messages := ClaudeChatOptions.messages o;
           ClaudeGenerateOptions.prompt := spread_prompt prompt (ClaudeChatOptions.prompt o);
           ClaudeGenerateOptions.system := ClaudeChatOptions.system o;
           ClaudeGenerateOptions.maxTokens := ClaudeChatOptions.maxTokens o;
           ClaudeGenerateOptions.temperature := ClaudeChatOptions.temperature o;
           ClaudeGenerateOptions.stopSequences := ClaudeChatOptions.stopSequences o |}
    end.

End Methods.
End VerifiableClaude.

(** ** The re-execution client ([src/eigenai.ts]) *)

Module VerifiableEigenAI.

Definition EIGENAI_ENDPOINT : string := "https://eigenai.eigencloud.xyz/v1".
Definition DEFAULT_MODEL : string := "gpt-oss-120b-f16".

Record t : Type :=
  { client : OpenAI;
    config : EigenAIConfig.t;
    endpoint : string }.

Definition constructor (config : EigenAIConfig.t) : t :=
  let endpoint := string_or (EigenAIConfig.endpoint config) EIGENAI_ENDPOINT in
  {| config := config;
     endpoint := endpoint;
     client := {| oa_apiKey := EigenAIConfig.apiKey config; oa_baseURL := endpoint |} |}.

(** [createVerifiableEigenAI] *)
Definition createVerifiableEigenAI (config : EigenAIConfig.t) : t :=
  constructor config.

(** [x * y] where [y] is a positive finite constant: the exact product,
    rounded to the nearest double. *)
Definition times_positive (x : number) (y : Q) : number :=
  match x with
  | NaN => NaN
  | Infinity s => Infinity s
  | Finite q => round_double (q * y)
  end.

Definition Math_floor (x : number) : number :=
  match x with
  | Finite q => num_of_Z (Qfloor q)
  | _ => x
  end.

(** [Math.floor(Math.random() * 2147483647)] *)
Definition generateSeed : Promise number :=
  r <- ask Math_random ;;
  ret (Math_floor (times_positive r (inject_Z 2147483647))).

Definition chat_message (m : Message.t) : ChatMessage :=
  {| cm_role := JStr (role_string (Message.role m));
     cm_content := JStr (Message.content m) |}.

(** The array [generate] starts its [messages] with. *)
Definition system_messages (options : EigenAIGenerateOptions.t) : list Message.t :=
  match EigenAIGenerateOptions.system options with
  | Some s =>
      if str_truthy s then [{| Message.role := system; Message.content := s |}] else []
  | None => []
  end.

(** The [messages] array of [generate]: [None] is the branch that throws. *)
Definition build_messages (options : EigenAIGenerateOptions.t) : option (list Message.t) :=
  match EigenAIGenerateOptions.messages options with
  | Some ms => Some (system_messages options ++ ms)%list
  | None =>
      match EigenAIGenerateOptions.prompt options with
      | Some p =>
          if str_truthy p
          then Some (system_messages options
                       ++ [{| Message.role := user; Message.content := p |}])%list
          else None
      | None => None
      end
  end.

(** [response.choices[0]?.message?.content || ""] *)
Definition first_content (response : ChatResponse) : string :=
  match resp_choices response with
  | [] => ""
  | choice :: _ =>
      match ch_message choice with
      | None => ""
      | Some m => string_or (cmsg_content m) ""
      end
  end.

(** [v.map(f)] on an untyped value. *)
Fixpoint map_outcome {A B : Type} (f : A -> Outcome B) (l : list A) : Outcome (list B) :=
  match l with
  | [] => Ok []
  | a :: rest => b <- f a ;; bs <- map_outcome f rest ;; ret (b :: bs)
  end.

Definition js_map {B : Type} (v : JsVal) (f : JsVal -> Outcome B) : Outcome (list B) :=
  match v with
  | JArr items => map_outcome f items
  | JUndefined | JNull =>
      Threw (TypeError ("Cannot read properties of " ++ type_name v ++ " (reading 'map')"))
  | _ => Threw (TypeError "attestation.requestParams.messages.map is not a function")
  end.

(** The run-time object behind a typed attestation; an optional field
    that is absent is no key. *)
Definition js_of_requestParams (p : RequestParams.t) : JsVal :=
  JObj (obj_fields
    [("messages", Some (JArr (map js_of_message (RequestParams.messages p))));
     ("temperature", option_map JNum (RequestParams.temperature p));
     ("maxTokens", option_map JNum (RequestParams.maxTokens p))]).

Definition js_of_attestation (a : EigenAIAttestation.t) : JsVal :=
  JObj (obj_fields
    [("seed", Some (JNum (EigenAIAttestation.seed a)));
     ("model", Some (JStr (EigenAIAttestation.model a)));
     ("requestId", option_map JStr (EigenAIAttestation.requestId a));
     ("signatures",
        option_map (fun l => JArr (map JStr l)) (EigenAIAttestation.signatures a));
     ("requestParams", Some (js_of_requestParams (EigenAIAttestation.requestParams a)))]).

(** The argument of [create] in [verifySerializedProof], whose
    attestation is parsed JSON: each property access may throw. *)
Definition replay_request (attestation : JsVal) : Outcome ChatRequest :=
  model <- get attestation "model" ;;
  requestParams <- get attestation "requestParams" ;;
  msgs <- get requestParams "messages" ;;
  messages <- js_map msgs
                (fun m => role <- get m "role" ;;
                          content <- get m "content" ;;
                          ret {| cm_role := role; cm_content := content |}) ;;
  maxTokens <- get requestParams "maxTokens" ;;
  temperature <- get requestParams "temperature" ;;
  seed <- get attestation "seed" ;;
  ret {| cr_model := model;
         cr_messages := messages;
         cr_max_tokens := or_else maxTokens (JNum (num_of_Z 1024));
         cr_temperature := coalesce temperature (JNum (num_of_Z 0));
         cr_seed := seed;
         cr_stop := JUndefined |}.

Section Methods.
Context {RT : JsRuntime}.

Definition generate (self : t) (options : EigenAIGenerateOptions.t)
  : Promise EigenAIResult.t :=
  let model := string_or (EigenAIGenerateOptions.model options) DEFAULT_MODEL in
  let maxTokens := number_or (EigenAIGenerateOptions.maxTokens options) (num_of_Z 1024) in
  let temperature := number_coalesce (EigenAIGenerateOptions.temperature options) (num_of_Z 0) in
  seed <- match EigenAIGenerateOptions.seed options with
          | Some s => ret s
          | None => generateSeed
          end ;;
  match build_messages options with
  | None => raise (Error "Either 'messages' or 'prompt' must be provided")
  | Some messages =>
      catch
        (response <- await (chat_completions_create (client self)
                      {| cr_model := JStr model;
                         cr_messages := map chat_message messages;
                         cr_max_tokens := JNum maxTokens;
                         cr_temperature := JNum temperature;
                         cr_seed := JNum seed;
                         cr_stop :=
                           opt_js (fun l => JArr (map JStr l))
                                  (EigenAIGenerateOptions.stop options) |}) ;;
         let text := first_content response in
         let attestation :=
           {| EigenAIAttestation.seed := seed;
              EigenAIAttestation.model := model;
              EigenAIAttestation.requestId := Some (resp_id response);
              EigenAIAttestation.signatures := None;
              EigenAIAttestation.requestParams :=
                {| RequestParams.messages := messages;
                   RequestParams.temperature := Some temperature;
                   RequestParams.maxTokens := Some maxTokens |} |} in
         now <- ask Date_now ;;
         ret {| EigenAIResult.text := text;
                EigenAIResult.attestation := attestation;
                EigenAIResult.timestamp := now;
                EigenAIResult.model := model;
                EigenAIResult.provider := eigenai;
                EigenAIResult.rawResponse := response |})
        (fun error =>
           raise (Error ("EigenAI generation failed: "
                           ++ caught_message "Unknown error occurred" error)))
  end.

Definition verify (self : t) (result : EigenAIResult.t) : Promise VerificationResult :=
  catch
    (let attestation := EigenAIResult.attestation result in
     let requestParams := EigenAIAttestation.requestParams attestation in
     response <- await (chat_completions_create (client self)
                   {| cr_model := JStr (EigenAIAttestation.model attestation);
                      cr_messages := map chat_message (RequestParams.messages requestParams);
                      cr_max_tokens :=
                        or_else (opt_js JNum (RequestParams.maxTokens requestParams))
                                (JNum (num_of_Z 1024));
                      cr_temperature :=
                        coalesce (opt_js JNum (RequestParams.temperature requestParams))
                                 (JNum (num_of_Z 0));
                      cr_seed := JNum (EigenAIAttestation.seed attestation);
                      cr_stop := JUndefined |}) ;;
     let reExecutedOutput := first_content response in
     let outputMatches := String.eqb reExecutedOutput (EigenAIResult.text result) in
     ret {| isValid := outputMatches;
            outputMatches := Some outputMatches;
            reExecutedOutput := Some reExecutedOutput;
            verifiedEndpoint := if outputMatches then Some (endpoint self) else None;
            error := None |})
    (fun error =>
       ret {| isValid := false;
              outputMatches := Some false;
              error := Some (caught_message "Verification failed" error);
              verifiedEndpoint := None;
              reExecutedOutput := None |}).

Definition verifySerializedProof (self : t) (serialized : SerializedProof)
  : Promise VerificationResult :=
  catch
    (attestation <- sync (JSON_parse (serialized_attestationJson serialized)) ;;
     request <- sync (replay_request attestation) ;;
     response <- await (chat_completions_create (client self) request) ;;
     let reExecutedOutput := first_content response in
     let outputMatches := strict_eq_str (serialized_text serialized) reExecutedOutput in
     ret {| isValid := outputMatches;
            outputMatches := Some outputMatches;
            reExecutedOutput := Some reExecutedOutput;
            verifiedEndpoint := if outputMatches then Some (endpoint self) else None;
            error := None |})
    (fun error =>
       ret {| isValid := false;
              outputMatches := Some false;
              error := Some (caught_message "Verification failed" error);
              verifiedEndpoint := None;
              reExecutedOutput := None |}).

Definition serializeResult (self : t) (result : EigenAIResult.t)
  : SerializedEigenAIProof.t :=
  {| SerializedEigenAIProof.attestationJson :=
       JSON_stringify (js_of_attestation (EigenAIResult.attestation result));
     SerializedEigenAIProof.text := EigenAIResult.text result;
     SerializedEigenAIProof.timestamp := EigenAIResult.timestamp result;
     SerializedEigenAIProof.model := EigenAIResult.model result;
     SerializedEigenAIProof.provider := eigenai |}.

(** [chat(prompt, options)]: [generate({ prompt, ...options })] *)
Definition chat (self : t) (prompt : string) (options : option EigenAIChatOptions.t)
  : Promise EigenAIResult.t :=
  generate self
    match options with
    | None =>
        {| EigenAIGenerateOptions.model := None;
           EigenAIGenerateOptions.messages := None;
           EigenAIGenerateOptions.prompt := Some prompt;
           EigenAIGenerateOptions.system := None;
           EigenAIGenerateOptions.maxTokens := None;
           EigenAIGenerateOptions.temperature := None;
           EigenAIGenerateOptions.seed := None;
           EigenAIGenerateOptions.stop := None |}
    | Some o =>
        {| EigenAIGenerateOptions.model := EigenAIChatOptions.model o;
           EigenAIGenerateOptions.messages := EigenAIChatOptions.messages o;
           EigenAIGenerateOptions.prompt := spread_prompt prompt (EigenAIChatOptions.prompt o);
           EigenAIGenerateOptions.system := EigenAIChatOptions.system o;
           EigenAIGenerateOptions.maxTokens := EigenAIChatOptions.maxTokens o;
           EigenAIGenerateOptions.temperature := EigenAIChatOptions.temperature o;
           EigenAIGenerateOptions.seed := EigenAIChatOptions.seed o;
           EigenAIGenerateOptions.stop := EigenAIChatOptions.stop o |}
    end.

End Methods.
End VerifiableEigenAI.

(** ** A concrete runtime for closed examples

    A JSON printer and parser for the fragment the examples use: [null],
    booleans, integers, strings of printable characters (with the escapes
    of the double quote and the backslash), arrays and objects.  As
    [JSON.stringify] does, the printer drops an object key whose value is
    [undefined] and prints [null] for a number that is not finite; a finite
    number that is not an integer is outside the fragment. *)

Module MiniJson.

Definition quote : ascii := ascii_of_nat 34.
Definition backslash : ascii := ascii_of_nat 92.

Definition print_Z (z : Z) : string := DecimalString.NilZero.string_of_int (Z.to_int z).

Definition is_integer (q : Q) : bool := Pos.eqb (Qden q) 1.

Fixpoint escape (s : string) : string :=
  match s with
  | EmptyString => EmptyString
  | String c rest =>
      if (Ascii.eqb c quote || Ascii.eqb c backslash)%bool
      then String backslash (String c (escape rest))
      else String c (escape rest)
  end.

Definition print_string (s : string) : string :=
  String quote (escape s ++ String quote EmptyString).

Definition print_number (n : number) : string :=
  match n with
  | Finite q => if is_integer q then print_Z (Qnum q) else "null"
  | _ => "null"
  end.

Fixpoint stringify (v : JsVal) : string :=
  match v with
  | JUndefined | JNull => "null"
  | JBool true => "true"
  | JBool false => "false"
  | JNum n => print_number n
  | JStr s => print_string s
  | JArr items => "[" ++ String.concat "," (map stringify items) ++ "]"
  | JObj fields =>
      "{" ++ String.concat ","
               (flat_map (fun kv : string * JsVal =>
                            let (k, x) := kv in
                            match x with
                            | JUndefined => []
                            | _ => [print_string k ++ ":" ++ stringify x]
                            end) fields)
          ++ "}"
  end.

Definition toString (n : number) : string :=
  match n with
  | NaN => "NaN"
  | Infinity false => "Infinity"
  | Infinity true => "-Infinity"
  | Finite q => if is_integer q then print_Z (Qnum q) else "NaN"
  end.

Definition is_space (c : ascii) : bool :=
  (Ascii.eqb c " " || Ascii.eqb c (ascii_of_nat 10)
   || Ascii.eqb c (ascii_of_nat 13) || Ascii.eqb c (ascii_of_nat 9))%bool.

Fixpoint skip_space (s : string) : string :=
  match s with
  | String c rest => if is_space c then skip_space rest else s
  | EmptyString => s
  end.

Definition digit_of (c : ascii) : option Z :=
  let n := nat_of_ascii c in
  if ((48 <=? n) && (n <=? 57))%nat then Some (Z.of_nat (n - 48)) else None.

Fixpoint parse_digits (acc : Z) (s : string) : Z * string :=
  match s with
  | String c rest =>
      match digit_of c with
      | Some d => parse_digits (10 * acc + d) rest
      | None => (acc, s)
      end
  | EmptyString => (acc, s)
  end.

(** After the opening quote: the characters up to the closing one. *)
Fixpoint parse_chars (s : string) : option (string * string) :=
  match s with
  | EmptyString => None
  | String c rest =>
      if Ascii.eqb c quote then Some (EmptyString, rest)
      else if Ascii.eqb c backslash then
        match rest with
        | String e rest' =>
            match parse_chars rest' with
            | Some (str, tail) => Some (String e str, tail)
            | None => None
            end
        | EmptyString => None
        end
      else
        match parse_chars rest with
        | Some (str, tail) => Some (String c str, tail)
        | None => None
        end
  end.

Definition expect (word : string) (v : JsVal) (s : string) : option (JsVal * string) :=
  if String.prefix word s
  then Some (v, substring (String.length word) (String.length s - String.length word) s)
  else None.

Fixpoint parse_value (fuel : nat) (s : string) : option (JsVal * string) :=
  match fuel with
  | O => None
  | S fuel' =>
      match skip_space s with
      | EmptyString => None
      | String c rest =>
          if Ascii.eqb c "n" then expect "null" JNull (String c rest)
          else if Ascii.eqb c "t" then expect "true" (JBool true) (String c rest)
          else if Ascii.eqb c "f" then expect "false" (JBool false) (String c rest)
          else if Ascii.eqb c quote then
            match parse_chars rest with
            | Some (str, tail) => Some (JStr str, tail)
            | None => None
            end
          else if Ascii.eqb c "[" then
            match skip_space rest with
            | String "]" tail => Some (JArr [], tail)
            | _ => parse_items fuel' rest []
            end
          else if Ascii.eqb c "{" then
            match skip_space rest with
            | String "}" tail => Some (JObj [], tail)
            | _ => parse_members fuel' rest []
            end
          else if Ascii.eqb c "-" then
            match rest with
            | String d _ =>
                match digit_of d with
                | Some _ =>
                    let (z, tail) := parse_digits 0 rest in
                    Some (JNum (num_of_Z (- z)), tail)
                | None => None
                end
            | EmptyString => None
            end
          else
            match digit_of c with
            | Some _ =>
                let (z, tail) := parse_digits 0 (String c rest) in
                Some (JNum (num_of_Z z), tail)
            | None => None
            end
      end
  end
with parse_items (fuel : nat) (s : string) (acc : list JsVal) : option (JsVal * string) :=
  match fuel with
  | O => None
  | S fuel' =>
      match parse_value fuel' s with
      | Some (v, tail) =>
          match skip_space tail with
          | String "," tail' => parse_items fuel' tail' (v :: acc)
          | String "]" tail' => Some (JArr (rev (v :: acc)), tail')
          | _ => None
          end
      | None => None
      end
  end
with parse_members (fuel : nat) (s : string) (acc : list (string * JsVal))
  : option (JsVal * string) :=
  match fuel with
  | O => None
  | S fuel' =>
      match skip_space s with
      | String c rest =>
          if Ascii.eqb c quote then
            match parse_chars rest with
            | Some (key, tail) =>
                match skip_space tail with
                | String ":" tail' =>
                    match parse_value fuel' tail' with
                    | Some (v, tail'') =>
                        match skip_space tail'' with
                        | String "," t => parse_members fuel' t ((key, v) :: acc)
                        | String "}" t => Some (JObj (rev ((key, v) :: acc)), t)
                        | _ => None
                        end
                    | None => None
                    end
                | _ => None
                end
            | None => None
            end
          else None
      | EmptyString => None
      end
  end.

(** [JSON.parse]: the whole text must be one value. *)
Definition parse (s : string) : Outcome JsVal :=
  match parse_value (S (String.length s)) s with
  | Some (v, tail) =>
      match skip_space tail with
      | EmptyString => Ok v
      | String c _ =>
          Threw (SyntaxError ("Unexpected token " ++ String c EmptyString ++ " in JSON"))
      end
  | None =>
      match skip_space s with
      | EmptyString => Threw (SyntaxError "Unexpected end of JSON input")
      | String c _ =>
          Threw (SyntaxError ("Unexpected token " ++ String c EmptyString
                                ++ " in JSON at position 0"))
      end
  end.

Definition runtime : JsRuntime :=
  {| JSON_parse_string := parse;
     JSON_stringify := stringify;
     Number_toString := toString |}.

End MiniJson.

(** ** Vocabulary of the properties *)

(** A fault is reported as data: [{ isValid: false, error: <message> }]. *)
Definition reports (fault : Thrown) (res : VerificationResult) : Prop :=
  isValid res = false
  /\ error res = Some (caught_message "Verification failed" fault).

(** [captures_faults p]: [p] never throws, and when an awaited
    collaborator throws, [p] returns at once and reports the fault. *)
Fixpoint captures_faults (p : Promise VerificationResult) : Prop :=
  match p with
  | Resolve _ => True
  | Reject _ => False
  | Await r k =>
      (forall fault, exists res, k (Threw fault) = Resolve res /\ reports fault res)
      /\ (forall a, captures_faults (k (Ok a)))
  | Ask b k => forall n, captures_faults (k n)
  end.

(** The endpoint a verification result is bound to: present exactly on
    success. *)
Definition binds_endpoint (url : string) (res : VerificationResult) : Prop :=
  verifiedEndpoint res = if isValid res then Some url else None.

(** An item of [content] whose [type] is ["text"]. *)
Definition is_text_item (item : JsVal) : bool :=
  match item with
  | JObj fields => strict_eq_str (lookup "type" fields) "text"
  | _ => false
  end.

(** The parsed response is an object that has no array field [content],
    or whose [content] array has no item of type ["text"]. *)
Definition lacks_text (response : JsVal) : bool :=
  match response with
  | JObj fields =>
      match lookup "content" fields with
      | JArr items => negb (existsb is_text_item items)
      | _ => true
      end
  | _ => false
  end.

(** No item of the [content] array is [null]. *)
Definition content_free_of_null (response : JsVal) : bool :=
  match response with
  | JObj fields =>
      match lookup "content" fields with
      | JArr items => negb (existsb nullish items)
      | _ => true
      end
  | _ => true
  end.

(** The payload survives [JSON.parse(JSON.stringify(payload))]. *)
Definition survives_json {RT : JsRuntime} (payload : JsVal) : Prop :=
  JSON_parse_string (JSON_stringify payload) = Ok payload.

(** The verdict of a verification: everything but the endpoint it is
    bound to. *)
Definition verdict (o : Outcome VerificationResult)
  : Outcome (bool * option string * option bool * option string) :=
  match o with
  | Ok res => Ok (isValid res, error res, outputMatches res, reExecutedOutput res)
  | Threw e => Threw e
  end.


(** The seed [generate] of the re-execution client works with in world
    [w]. *)
Definition seed_in (w : World) (options : EigenAIGenerateOptions.t) : number :=
  match EigenAIGenerateOptions.seed options with
  | Some s => s
  | None =>
      VerifiableEigenAI.Math_floor
        (VerifiableEigenAI.times_positive (builtin w Math_random) (inject_Z 2147483647))
  end.

(** What a holder of the proof bundle reads out of it, as [generate] does:
    the parsed response and the text of its first text item. *)
Definition decoded {RT : JsRuntime} (proof : JsVal) : Outcome (JsVal * JsVal) :=
  responseJson <- VerifiableClaude.extracted_response proof ;;
  if negb (truthy responseJson)
  then raise (Error "Failed to extract response from proof")
  else
    response <- JSON_parse responseJson ;;
    text <- VerifiableClaude.extract_text response ;;
    ret (response, text).

(** The request [verify] sends for an attestation. *)
Definition replayed (attestation : EigenAIAttestation.t) : ChatRequest :=
  {| cr_model := JStr (EigenAIAttestation.model attestation);
     cr_messages :=
       map VerifiableEigenAI.chat_message
         (RequestParams.messages (EigenAIAttestation.requestParams attestation));
     cr_max_tokens :=
       or_else
         (opt_js JNum (RequestParams.maxTokens (EigenAIAttestation.requestParams attestation)))
         (JNum (num_of_Z 1024));
     cr_temperature :=
       coalesce
         (opt_js JNum
            (RequestParams.temperature (EigenAIAttestation.requestParams attestation)))
         (JNum (num_of_Z 0));
     cr_seed := JNum (EigenAIAttestation.seed attestation);
     cr_stop := JUndefined |}.

(** The request with its stop sequences taken out. *)
Definition without_stop (req : ChatRequest) : ChatRequest :=
  {| cr_model := cr_model req;
     cr_messages := cr_messages req;
     cr_max_tokens := cr_max_tokens req;
     cr_temperature := cr_temperature req;
     cr_seed := cr_seed req;
     cr_stop := JUndefined |}.

(** The calls [generate] of the re-execution client makes before it
    looks at the messages. *)
Definition seed_calls (options : EigenAIGenerateOptions.t) : list Call :=
  match EigenAIGenerateOptions.seed options with
  | Some _ => []
  | None => [Asked Math_random]
  end.

(** What a re-execution result tells its reader: the endpoint exactly on
    success, and either an error or the re-executed output, never both. *)
Definition well_formed_verdict (endpoint : string) (res : VerificationResult) : Prop :=
  verifiedEndpoint res = (if isValid res then Some endpoint else None)
  /\ outputMatches res = Some (isValid res)
  /\ (isValid res = true -> error res = None)
  /\ (error res = None <-> reExecutedOutput res <> None).

(** ** Concrete inputs for the closed examples *)

Module Demo.

(** The proof bundle of [demo-mock.ts]. *)
Definition response : JsVal :=
  JObj [("id", JStr "msg_01ABC");
        ("type", JStr "message");
        ("content",
           JArr [JObj [("type", JStr "text");
                       ("text", JStr "The capital of France is Paris.")]])].

Definition proof_with (response : JsVal) : JsVal :=
  JObj [("identifier", JStr "0x7a8b9c0d1e2f3a4b5c6d7e8f9a0b1c2d3e4f5a6b");
        ("signatures", JArr [JStr "0xabc123..."]);
        ("extractedParameterValues",
           JObj [("response", JStr (MiniJson.stringify response))])].

Definition mockProof : JsVal := proof_with response.

(** A verifier that accepts the bundles signed as [mockProof] is. *)
Definition accepts (proof : JsVal) : bool :=
  match proof with
  | JObj fields =>
      match lookup "signatures" fields with
      | JArr [JStr sig] => String.eqb sig "0xabc123..."
      | _ => false
      end
  | _ => false
  end.

(** A provider that answers every request with the same text. *)
Definition completion_of (text : string) : ChatResponse :=
  {| resp_id := "chatcmpl-1";
     resp_choices := [{| ch_message := Some {| cmsg_content := Some text |} |}] |}.

Definition world (proof : JsVal) (text : string) (random : Q) : World :=
  {| answer := fun r =>
       match r as r0 return Outcome (Answer r0) with
       | zkFetch _ _ => Ok proof
       | verifyProof p => Ok (accepts p)
       | chat_completions_create _ _ => Ok (completion_of text)
       end;
     builtin := fun b =>
       match b with
       | Math_random => Finite random
       | Date_now => num_of_Z 1700000000000
       end |}.

(** A world whose collaborators all throw. *)
Definition broken (message : string) : World :=
  {| answer := fun r => Threw (Error message);
     builtin := fun _ => num_of_Z 0 |}.

(** A world whose collaborators all throw a value that is not an
    [Error], as [throw "rate limited"] does. *)
Definition throwing (value : JsVal) : World :=
  {| answer := fun r => Threw (ThrowValue value);
     builtin := fun _ => num_of_Z 0 |}.

Definition claude_config (endpoint : option string) : VerifiableClaudeConfig.t :=
  {| VerifiableClaudeConfig.apiKey := "sk-ant-demo";
     VerifiableClaudeConfig.reclaimAppId := "app-id";
     VerifiableClaudeConfig.reclaimAppSecret := "app-secret";
     VerifiableClaudeConfig.endpoint := endpoint |}.

Definition claude : VerifiableClaude.t :=
  VerifiableClaude.createVerifiableClaude (claude_config None).

Definition proxied_claude : VerifiableClaude.t :=
  VerifiableClaude.createVerifiableClaude (claude_config (Some "https://proxy.example/v1")).

Definition eigen : VerifiableEigenAI.t :=
  VerifiableEigenAI.createVerifiableEigenAI
    {| EigenAIConfig.apiKey := "eigen-demo"; EigenAIConfig.endpoint := None |}.

Definition claude_result : VerifiableClaudeResult.t :=
  {| VerifiableClaudeResult.text := JStr "The capital of France is Paris.";
     VerifiableClaudeResult.proof := mockProof;
     VerifiableClaudeResult.timestamp := num_of_Z 1700000000000;
     VerifiableClaudeResult.model := "claude-3-5-sonnet-20241022";
     VerifiableClaudeResult.provider := reclaim;
     VerifiableClaudeResult.rawResponse := response |}.

Definition ask_2_plus_2 : list Message.t :=
  [{| Message.role := user; Message.content := "What is 2 + 2?" |}].

Definition attestation_with (maxTokens : option number) : EigenAIAttestation.t :=
  {| EigenAIAttestation.seed := num_of_Z 999;
     EigenAIAttestation.model := "gpt-oss-120b-f16";
     EigenAIAttestation.requestId := Some "chatcmpl-1";
     EigenAIAttestation.signatures := None;
     EigenAIAttestation.requestParams :=
       {| RequestParams.messages := ask_2_plus_2;
          RequestParams.temperature := Some (num_of_Z 0);
          RequestParams.maxTokens := maxTokens |} |}.

Definition eigen_result_with (maxTokens : option number) : EigenAIResult.t :=
  {| EigenAIResult.text := "4";
     EigenAIResult.attestation := attestation_with maxTokens;
     EigenAIResult.timestamp := num_of_Z 1700000000000;
     EigenAIResult.model := "gpt-oss-120b-f16";
     EigenAIResult.provider := eigenai;
     EigenAIResult.rawResponse := completion_of "4" |}.

Definition eigen_result : EigenAIResult.t := eigen_result_with (Some (num_of_Z 1024)).

Definition claude_options (messages : option (list Message.t)) (prompt : option string)
  : ClaudeGenerateOptions.t :=
  {| ClaudeGenerateOptions.model := None;
     ClaudeGenerateOptions.messages := messages;
     ClaudeGenerateOptions.prompt := prompt;
     ClaudeGenerateOptions.system := None;
     ClaudeGenerateOptions.maxTokens := None;
     ClaudeGenerateOptions.temperature := None;
     ClaudeGenerateOptions.stopSequences := None |}.

Definition eigen_options (messages : option (list Message.t)) (prompt : option string)
                         (seed : option number) : EigenAIGenerateOptions.t :=
  {| EigenAIGenerateOptions.model := None;
     EigenAIGenerateOptions.messages := messages;
     EigenAIGenerateOptions.prompt := prompt;
     EigenAIGenerateOptions.system := None;
     EigenAIGenerateOptions.maxTokens := None;
     EigenAIGenerateOptions.temperature := None;
     EigenAIGenerateOptions.seed := seed;
     EigenAIGenerateOptions.stop := None |}.

Definition accepted : VerificationResult :=
  {| isValid := true;
     verifiedEndpoint := Some "https://api.anthropic.com/v1/messages";
     error := None; outputMatches := None; reExecutedOutput := None |}.

Definition rejected_by_parser : VerificationResult :=
  {| isValid := false;
     verifiedEndpoint := None;
     error := Some "Unexpected token u in JSON at position 0";
     outputMatches := None; reExecutedOutput := None |}.

(** What [generate] of the re-execution client returns in [w] for the
    default options with the given messages and seed. *)
Definition generated (messages : list Message.t) (seed : number) : EigenAIResult.t :=
  {| EigenAIResult.text := "4";
     EigenAIResult.attestation :=
       {| EigenAIAttestation.seed := seed;
          EigenAIAttestation.model := "gpt-oss-120b-f16";
          EigenAIAttestation.requestId := Some "chatcmpl-1";
          EigenAIAttestation.signatures := None;
          EigenAIAttestation.requestParams :=
            {| RequestParams.messages := messages;
               RequestParams.temperature := Some (num_of_Z 0);
               RequestParams.maxTokens := Some (num_of_Z 1024) |} |};
     EigenAIResult.timestamp := num_of_Z 1700000000000;
     EigenAIResult.model := "gpt-oss-120b-f16";
     EigenAIResult.provider := eigenai;
     EigenAIResult.rawResponse := completion_of "4" |}.

(** A response whose [content] array holds [null]. *)
Definition null_content_response : JsVal :=
  JObj [("id", JStr "msg_01ABC"); ("type", JStr "message"); ("content", JArr [JNull])].

(** A response whose [content] array holds a tool call and no text. *)
Definition tool_response : JsVal :=
  JObj [("id", JStr "msg_01ABC");
        ("type", JStr "message");
        ("content", JArr [JObj [("type", JStr "tool_use"); ("id", JStr "toolu_01")]])].

(** The witness network returns [mockProof], the verifier accepts it, the
    provider answers ["4"], [Math.random()] is one half. *)
Definition w : World := world mockProof "4" (1 # 2).

Definition claude_serialized : SerializedClaudeProof.t :=
  VerifiableClaude.serializeResult (RT := MiniJson.runtime) proxied_claude claude_result.

Definition eigen_serialized : SerializedEigenAIProof.t :=
  VerifiableEigenAI.serializeResult (RT := MiniJson.runtime) eigen eigen_result.

(** A serialized proof of the re-execution strategy whose payload is the
    text [undefined]. *)
Definition eigen_undefined_payload : SerializedEigenAIProof.t :=
  {| SerializedEigenAIProof.attestationJson := "undefined";
     SerializedEigenAIProof.text := "4";
     SerializedEigenAIProof.timestamp := num_of_Z 1700000000000;
     SerializedEigenAIProof.model := "gpt-oss-120b-f16";
     SerializedEigenAIProof.provider := eigenai |}.

(** [claude_serialized] with another text. *)
Definition claude_tampered : SerializedClaudeProof.t :=
  {| SerializedClaudeProof.proofJson := SerializedClaudeProof.proofJson claude_serialized;
     SerializedClaudeProof.text := JStr "The capital of France is Lyon.";
     SerializedClaudeProof.timestamp := num_of_Z 0;
     SerializedClaudeProof.model := "claude-3-opus-20240229";
     SerializedClaudeProof.provider := reclaim |}.

(** A serialized transcript proof whose payload is cut short. *)
Definition claude_truncated : SerializedClaudeProof.t :=
  {| SerializedClaudeProof.proofJson := "{";
     SerializedClaudeProof.text := JStr "";
     SerializedClaudeProof.timestamp := num_of_Z 0;
     SerializedClaudeProof.model := "claude-3-opus-20240229";
     SerializedClaudeProof.provider := reclaim |}.


(** What the re-execution verifier returns in [w] for the text ["4"], and
    for another text. *)
Definition matched : VerificationResult :=
  {| isValid := true;
     outputMatches := Some true;
     reExecutedOutput := Some "4";
     verifiedEndpoint := Some "https://eigenai.eigencloud.xyz/v1";
     error := None |}.

Definition mismatch : VerificationResult :=
  {| isValid := false;
     outputMatches := Some false;
     reExecutedOutput := Some "4";
     verifiedEndpoint := None;
     error := None |}.

(** A third party with an API key of its own. *)
Definition third_party : VerifiableEigenAI.t :=
  VerifiableEigenAI.createVerifiableEigenAI
    {| EigenAIConfig.apiKey := "third-party-key"; EigenAIConfig.endpoint := None |}.

(** A response with a tool call, an empty text, a second text and a
    [null]. *)
Definition mixed_response : JsVal :=
  JObj [("id", JStr "msg_01ABC");
        ("content",
           JArr [JObj [("type", JStr "tool_use")];
                 JObj [("type", JStr "text"); ("text", JStr "first")];
                 JObj [("type", JStr "text"); ("text", JStr "second")];
                 JNull])].

Definition eigen_options_with_stop (stop : option (list string)) : EigenAIGenerateOptions.t :=
  {| EigenAIGenerateOptions.model := None;
     EigenAIGenerateOptions.messages := None;
     EigenAIGenerateOptions.prompt := Some "What is 2 + 2?";
     EigenAIGenerateOptions.system := None;
     EigenAIGenerateOptions.maxTokens := None;
     EigenAIGenerateOptions.temperature := None;
     EigenAIGenerateOptions.seed := Some (num_of_Z 999);
     EigenAIGenerateOptions.stop := stop |}.

Definition claude_chat_options (messages : option (list Message.t))
                               (prompt : option (option string)) : ClaudeChatOptions.t :=
  {| ClaudeChatOptions.model := None;
     ClaudeChatOptions.messages := messages;
     ClaudeChatOptions.prompt := prompt;
     ClaudeChatOptions.system := None;
     ClaudeChatOptions.maxTokens := None;
     ClaudeChatOptions.temperature := None;
     ClaudeChatOptions.stopSequences := None |}.

Definition eigen_chat_options (messages : option (list Message.t))
                              (prompt : option (option string)) : EigenAIChatOptions.t :=
  {| EigenAIChatOptions.model := None;
     EigenAIChatOptions.messages := messages;
     EigenAIChatOptions.prompt := prompt;
     EigenAIChatOptions.system := None;
     EigenAIChatOptions.maxTokens := None;
     EigenAIChatOptions.temperature := None;
     EigenAIChatOptions.seed := Some (num_of_Z 7);
     EigenAIChatOptions.stop := None |}.

(** [eigen_serialized] with another text. *)
Definition eigen_tampered : SerializedEigenAIProof.t :=
  {| SerializedEigenAIProof.attestationJson :=
       SerializedEigenAIProof.attestationJson eigen_serialized;
     SerializedEigenAIProof.text := "5";
     SerializedEigenAIProof.timestamp := num_of_Z 1700000000000;
     SerializedEigenAIProof.model := "gpt-oss-120b-f16";
     SerializedEigenAIProof.provider := eigenai |}.

(** A serialized re-execution proof whose attestation is an empty object. *)
Definition eigen_empty_attestation : SerializedEigenAIProof.t :=
  {| SerializedEigenAIProof.attestationJson := "{}";
     SerializedEigenAIProof.text := "4";
     SerializedEigenAIProof.timestamp := num_of_Z 1700000000000;
     SerializedEigenAIProof.model := "gpt-oss-120b-f16";
     SerializedEigenAIProof.provider := eigenai |}.

End Demo.

(** ** Properties *)

Section Verification.
Context {RT : JsRuntime}.

(** *** What a verification call returns *)

Lemma captures_faults_returns (p : Promise VerificationResult) :
  captures_faults p -> fulfils (fun _ => True) p.
Proof.
  induction p as [a | e | r k IH | b k IH]; cbn; auto.
  intros [Hfault Hok] [a | fault].
  - apply IH, Hok.
  - destruct (Hfault fault) as [res [-> _]]. exact I.
Qed.

(** Running a computation that fulfils [P] ends in a value satisfying [P]. *)
Lemma fulfils_completion {A : Type} (P : A -> Prop) (p : Promise A) (w : World) :
  fulfils P p -> exists a, completion w p = Ok a /\ P a.
Proof.
  unfold completion.
  induction p as [a | e | r k IH | b k IH]; cbn; intros H.
  - eauto.
  - contradiction.
  - destruct (IH (answer w r) (H _)) as [a [E Pa]].
    destruct (exec w (k (answer w r))); cbn in *. eauto.
  - destruct (IH (builtin w b) (H _)) as [a [E Pa]].
    destruct (exec w (k (builtin w b))); cbn in *. eauto.
Qed.

(** C3: in every VerificationResult that [verify] and
    [verifySerializedProof] of the re-execution client return, on the
    success path and on the error path, [outputMatches] is set and equals
    [isValid]; both calls return whatever the provider does. *)
Theorem reexecution_isValid_is_outputMatches
  (self : VerifiableEigenAI.t) (result : EigenAIResult.t) (serialized : SerializedProof) :
  fulfils (fun res => outputMatches res = Some (isValid res))
          (VerifiableEigenAI.verify self result)
  /\ fulfils (fun res => outputMatches res = Some (isValid res))
             (VerifiableEigenAI.verifySerializedProof self serialized).
Proof.
  split.
  - cbn. intros [response | fault]; reflexivity.
  - unfold VerifiableEigenAI.verifySerializedProof.
    destruct (JSON_parse (serialized_attestationJson serialized)) as [att | fault];
      [ | reflexivity ].
    cbn -[VerifiableEigenAI.replay_request].
    destruct (VerifiableEigenAI.replay_request att) as [req | fault]; cbn;
      [ | reflexivity ].
    intros [response | fault]; reflexivity.
Qed.

(** C5, as amended: [verify] and [verifySerializedProof] of both clients
    never throw.  When the awaited collaborator throws (the proof verifier,
    the provider during re-execution), and when the serialized payload is
    malformed ([JSON.parse] throws, or the parsed attestation has not the
    shape the request is built from), they return a result with [isValid]
    false; its [error] is the message of the fault when what was thrown is
    an [Error], and the fixed text "Verification failed" when it is any
    other value. *)
Theorem verification_faults_are_returned
  (claude : VerifiableClaude.t) (eigen : VerifiableEigenAI.t)
  (claude_result : VerifiableClaudeResult.t) (eigen_result : EigenAIResult.t)
  (serialized : SerializedProof) :
  captures_faults (VerifiableClaude.verify claude claude_result)
  /\ captures_faults (VerifiableClaude.verifySerializedProof serialized)
  /\ captures_faults (VerifiableEigenAI.verify eigen eigen_result)
  /\ captures_faults (VerifiableEigenAI.verifySerializedProof eigen serialized)
  /\ (forall fault,
        JSON_parse (serialized_proofJson serialized) = Threw fault ->
        exists res,
          VerifiableClaude.verifySerializedProof serialized = Resolve res
          /\ reports fault res)
  /\ (forall fault,
        JSON_parse (serialized_attestationJson serialized) = Threw fault ->
        exists res,
          VerifiableEigenAI.verifySerializedProof eigen serialized = Resolve res
          /\ reports fault res)
  /\ (forall attestation fault,
        JSON_parse (serialized_attestationJson serialized) = Ok attestation ->
        VerifiableEigenAI.replay_request attestation = Threw fault ->
        exists res,
          VerifiableEigenAI.verifySerializedProof eigen serialized = Resolve res
          /\ reports fault res)
  /\ (forall name message res,
        reports (ThrowError name message) res ->
        isValid res = false /\ error res = Some message)
  /\ (forall value res,
        reports (ThrowValue value) res ->
        isValid res = false /\ error res = Some "Verification failed").
Proof.
  assert (Hreport : forall fault fallback_free,
             fallback_free = Some (caught_message "Verification failed" fault) ->
             forall om ro,
             reports fault {| isValid := false; verifiedEndpoint := None;
                              error := fallback_free;
                              outputMatches := om; reExecutedOutput := ro |}).
  { intros fault msg -> om ro. split; reflexivity. }
  split; [ | split; [ | split; [ | split; [ | split; [ | split; [ | split; [ | split ] ] ] ] ] ] ];
    [ | | | | | | | intros name message res H; exact H | intros value res H; exact H ].
  - cbn. split; [ | intros a; exact I ].
    intros fault. eexists. split; [ reflexivity | now apply Hreport ].
  - unfold VerifiableClaude.verifySerializedProof.
    destruct (JSON_parse (serialized_proofJson serialized)) as [proof | fault]; cbn;
      [ | exact I ].
    split; [ | intros a; exact I ].
    intros fault. eexists. split; [ reflexivity | now apply Hreport ].
  - cbn. split; [ | intros a; exact I ].
    intros fault. eexists. split; [ reflexivity | now apply Hreport ].
  - unfold VerifiableEigenAI.verifySerializedProof.
    destruct (JSON_parse (serialized_attestationJson serialized)) as [att | fault];
      [ | exact I ].
    cbn -[VerifiableEigenAI.replay_request].
    destruct (VerifiableEigenAI.replay_request att) as [req | fault]; cbn;
      [ | exact I ].
    split; [ | intros a; exact I ].
    intros fault. eexists. split; [ reflexivity | now apply Hreport ].
  - intros fault E. unfold VerifiableClaude.verifySerializedProof. rewrite E.
    eexists. split; [ reflexivity | now apply Hreport ].
  - intros fault E. unfold VerifiableEigenAI.verifySerializedProof. rewrite E.
    eexists. split; [ reflexivity | now apply Hreport ].
  - intros att fault E E'. unfold VerifiableEigenAI.verifySerializedProof. rewrite E.
    cbn -[VerifiableEigenAI.replay_request]. rewrite E'.
    eexists. split; [ reflexivity | now apply Hreport ].
Qed.

(** C2, as amended: [verify] binds [verifiedEndpoint] to the endpoint of
    the client followed by [/messages] when [isValid] is true and leaves it
    undefined otherwise; the client's endpoint is the configured one when
    a non-empty one is supplied, and the default
    [https://api.anthropic.com/v1] when none or the empty string is.  The
    static [verifySerializedProof] binds it to the default endpoint
    [https://api.anthropic.com/v1/messages] when [isValid] is true,
    whatever any client is configured with, and leaves it undefined
    otherwise. *)
Theorem transcript_verifiedEndpoint_binding
  (config : VerifiableClaudeConfig.t) (result : VerifiableClaudeResult.t)
  (serialized : SerializedProof) :
  fulfils (binds_endpoint
             (VerifiableClaude.endpoint (VerifiableClaude.constructor config) ++ "/messages"))
          (VerifiableClaude.verify (VerifiableClaude.constructor config) result)
  /\ fulfils (binds_endpoint "https://api.anthropic.com/v1/messages")
             (VerifiableClaude.verifySerializedProof serialized)
  /\ (forall url,
        VerifiableClaudeConfig.endpoint config = Some url -> url <> "" ->
        VerifiableClaude.endpoint (VerifiableClaude.constructor config) = url)
  /\ (VerifiableClaudeConfig.endpoint config = None
      \/ VerifiableClaudeConfig.endpoint config = Some "" ->
      VerifiableClaude.endpoint (VerifiableClaude.constructor config)
      = "https://api.anthropic.com/v1"
      /\ fulfils (binds_endpoint "https://api.anthropic.com/v1/messages")
                 (VerifiableClaude.verify (VerifiableClaude.constructor config) result)).
Proof.
  split; [ | split; [ | split ] ].
  - cbn. intros [valid | fault]; reflexivity.
  - unfold VerifiableClaude.verifySerializedProof.
    destruct (JSON_parse (serialized_proofJson serialized)) as [proof | fault]; cbn;
      [ | reflexivity ].
    intros [valid | fault]; reflexivity.
  - intros url E Hurl. cbn. rewrite E. cbn.
    destruct url; [ contradiction | reflexivity ].
  - intros E.
    assert (Hdefault : VerifiableClaude.endpoint (VerifiableClaude.constructor config)
                       = "https://api.anthropic.com/v1").
    { cbn. destruct E as [-> | ->]; reflexivity. }
    split; [ exact Hdefault | ].
    unfold VerifiableClaude.verify. rewrite Hdefault. cbn.
    intros [valid | fault]; reflexivity.
Qed.

(** C10: the static [verifySerializedProof] of the transcript-proof client
    reads [proofJson] and nothing else: two serialized proofs with the same
    [proofJson] are verified by the same computation, whatever their
    [text], [model] and [timestamp]. *)
Theorem serialized_transcript_verdict_reads_proofJson_only
  (s1 s2 : SerializedClaudeProof.t) :
  SerializedClaudeProof.proofJson s1 = SerializedClaudeProof.proofJson s2 ->
  VerifiableClaude.verifySerializedProof (OfClaude s1)
  = VerifiableClaude.verifySerializedProof (OfClaude s2).
Proof.
  intros E. unfold VerifiableClaude.verifySerializedProof. cbn [serialized_proofJson].
  rewrite E. reflexivity.
Qed.

(** *** What [generate] dispatches *)

Ltac case_step :=
  match goal with
  | |- context [answer ?w ?r] => destruct (answer w r) as [? | ?]
  | |- context [truthy ?v] => destruct (truthy v)
  | |- context [VerifiableClaude.extracted_response ?v] =>
      destruct (VerifiableClaude.extracted_response v) as [? | ?]
  | |- context [JSON_parse ?v] => destruct (JSON_parse v) as [? | ?]
  | |- context [VerifiableClaude.extract_text ?v] =>
      destruct (VerifiableClaude.extract_text v) as [? | ?]
  end;
  cbn -[VerifiableClaude.extracted_response JSON_parse VerifiableClaude.extract_text
        truthy VerifiableClaude.build_body].

Lemma claude_generate_dispatched
  (self : VerifiableClaude.t) (options : ClaudeGenerateOptions.t) (w : World)
  (messages : list Message.t) :
  VerifiableClaude.build_messages options = Some messages ->
  dispatched w (VerifiableClaude.generate self options)
  = [zkFetch (VerifiableClaude.reclaimClient self)
       (VerifiableClaude.zkFetch_args self (VerifiableClaude.build_body options messages))].
Proof.
  intros E. unfold dispatched, calls_of, VerifiableClaude.generate. rewrite E.
  cbn -[VerifiableClaude.extracted_response JSON_parse VerifiableClaude.extract_text
        truthy VerifiableClaude.build_body].
  repeat case_step; reflexivity.
Qed.

Lemma claude_generate_not_provided
  (self : VerifiableClaude.t) (options : ClaudeGenerateOptions.t) :
  VerifiableClaude.build_messages options = None ->
  VerifiableClaude.generate self options
  = Reject (Error "Either 'messages' or 'prompt' must be provided").
Proof.
  intros E. unfold VerifiableClaude.generate. rewrite E. reflexivity.
Qed.

Lemma eigen_generate_dispatched
  (self : VerifiableEigenAI.t) (options : EigenAIGenerateOptions.t) (w : World)
  (messages : list Message.t) :
  VerifiableEigenAI.build_messages options = Some messages ->
  exists req,
    dispatched w (VerifiableEigenAI.generate self options)
    = [chat_completions_create (VerifiableEigenAI.client self) req]
    /\ cr_messages req = map VerifiableEigenAI.chat_message messages
    /\ cr_seed req = JNum (seed_in w options)
    /\ (forall result,
          completion w (VerifiableEigenAI.generate self options) = Ok result ->
          EigenAIAttestation.seed (EigenAIResult.attestation result) = seed_in w options).
Proof.
  intros E. unfold dispatched, calls_of, completion, seed_in, VerifiableEigenAI.generate.
  rewrite E.
  destruct (EigenAIGenerateOptions.seed options) as [s | ]; cbn;
    match goal with
    | |- context [answer w ?r] => destruct (answer w r) as [response | fault]
    end; cbn;
    (eexists; split; [ reflexivity | split; [ reflexivity | split; [ reflexivity | ] ] ]);
    intros result H; inversion H; reflexivity.
Qed.

Lemma eigen_generate_not_provided
  (self : VerifiableEigenAI.t) (options : EigenAIGenerateOptions.t) (w : World) :
  VerifiableEigenAI.build_messages options = None ->
  dispatched w (VerifiableEigenAI.generate self options) = []
  /\ completion w (VerifiableEigenAI.generate self options)
     = Threw (Error "Either 'messages' or 'prompt' must be provided").
Proof.
  intros E. unfold dispatched, calls_of, completion, VerifiableEigenAI.generate.
  rewrite E.
  destruct (EigenAIGenerateOptions.seed options) as [s | ]; cbn; split; reflexivity.
Qed.

(** C7, as amended: [generate] of either client fails before dispatch,
    with the error "Either 'messages' or 'prompt' must be provided", when
    [messages] is not supplied and [prompt] is not supplied or is the empty
    string.  When [messages] is supplied, exactly one request is dispatched
    and it carries that array as it is (after the system message, for the
    re-execution client), also when the array is empty; when only a
    non-empty [prompt] is supplied, the request carries the single user
    message made of it. *)
Theorem generate_dispatches_what_is_provided
  (claude : VerifiableClaude.t) (eigen : VerifiableEigenAI.t)
  (copts : ClaudeGenerateOptions.t) (eopts : EigenAIGenerateOptions.t) (w : World) :
  (ClaudeGenerateOptions.messages copts = None ->
   ClaudeGenerateOptions.prompt copts = None
   \/ ClaudeGenerateOptions.prompt copts = Some "" ->
   dispatched w (VerifiableClaude.generate claude copts) = []
   /\ completion w (VerifiableClaude.generate claude copts)
      = Threw (Error "Either 'messages' or 'prompt' must be provided"))
  /\ (forall ms,
        ClaudeGenerateOptions.messages copts = Some ms ->
        dispatched w (VerifiableClaude.generate claude copts)
        = [zkFetch (VerifiableClaude.reclaimClient claude)
             (VerifiableClaude.zkFetch_args claude (VerifiableClaude.build_body copts ms))]
        /\ get (VerifiableClaude.build_body copts ms) "messages"
           = Ok (JArr (map js_of_message ms)))
  /\ (forall p,
        ClaudeGenerateOptions.messages copts = None ->
        ClaudeGenerateOptions.prompt copts = Some p -> p <> "" ->
        dispatched w (VerifiableClaude.generate claude copts)
        = [zkFetch (VerifiableClaude.reclaimClient claude)
             (VerifiableClaude.zkFetch_args claude
                (VerifiableClaude.build_body copts
                   [{| Message.role := user; Message.content := p |}]))])
  /\ (EigenAIGenerateOptions.messages eopts = None ->
      EigenAIGenerateOptions.prompt eopts = None
      \/ EigenAIGenerateOptions.prompt eopts = Some "" ->
      dispatched w (VerifiableEigenAI.generate eigen eopts) = []
      /\ completion w (VerifiableEigenAI.generate eigen eopts)
         = Threw (Error "Either 'messages' or 'prompt' must be provided"))
  /\ (forall ms,
        EigenAIGenerateOptions.messages eopts = Some ms ->
        exists req,
          dispatched w (VerifiableEigenAI.generate eigen eopts)
          = [chat_completions_create (VerifiableEigenAI.client eigen) req]
          /\ cr_messages req
             = map VerifiableEigenAI.chat_message
                 (VerifiableEigenAI.system_messages eopts ++ ms)%list)
  /\ (forall p,
        EigenAIGenerateOptions.messages eopts = None ->
        EigenAIGenerateOptions.prompt eopts = Some p -> p <> "" ->
        exists req,
          dispatched w (VerifiableEigenAI.generate eigen eopts)
          = [chat_completions_create (VerifiableEigenAI.client eigen) req]
          /\ cr_messages req
             = map VerifiableEigenAI.chat_message
                 (VerifiableEigenAI.system_messages eopts
                    ++ [{| Message.role := user; Message.content := p |}])%list).
Proof.
  split; [ | split; [ | split; [ | split; [ | split ] ] ] ].
  - intros Em Ep.
    assert (E : VerifiableClaude.build_messages copts = None).
    { unfold VerifiableClaude.build_messages. rewrite Em.
      destruct Ep as [-> | ->]; reflexivity. }
    rewrite (claude_generate_not_provided claude copts E). split; reflexivity.
  - intros ms Em. split.
    + apply claude_generate_dispatched.
      unfold VerifiableClaude.build_messages. rewrite Em. reflexivity.
    + reflexivity.
  - intros p Em Ep Hp. apply claude_generate_dispatched.
    unfold VerifiableClaude.build_messages. rewrite Em, Ep.
    destruct p; [ contradiction | reflexivity ].
  - intros Em Ep. apply eigen_generate_not_provided.
    unfold VerifiableEigenAI.build_messages. rewrite Em.
    destruct Ep as [-> | ->]; reflexivity.
  - intros ms Em.
    destruct (eigen_generate_dispatched eigen eopts w
                (messages := (VerifiableEigenAI.system_messages eopts ++ ms)%list))
      as [req [Hd [Hm _]]].
    { unfold VerifiableEigenAI.build_messages. rewrite Em. reflexivity. }
    exists req. split; assumption.
  - intros p Em Ep Hp.
    destruct (eigen_generate_dispatched eigen eopts w
                (messages := (VerifiableEigenAI.system_messages eopts
                                ++ [{| Message.role := user; Message.content := p |}])%list))
      as [req [Hd [Hm _]]].
    { unfold VerifiableEigenAI.build_messages. rewrite Em, Ep.
      destruct p; [ contradiction | reflexivity ]. }
    exists req. split; assumption.
Qed.

(** *** The seed *)









(** *** The text of a transcript-proof result *)

Lemma find_text_none (items : list JsVal) :
  existsb nullish items = false ->
  existsb is_text_item items = false ->
  VerifiableClaude.find_text items = Ok JUndefined.
Proof.
  induction items as [ | item rest IH]; cbn [existsb VerifiableClaude.find_text].
  - reflexivity.
  - intros Hnull Htext.
    apply orb_false_iff in Hnull as [Hnull Hnull'].
    apply orb_false_iff in Htext as [Htext Htext'].
    destruct item; cbn in Hnull, Htext |- *; try discriminate;
      try rewrite Htext; auto.
Qed.

Lemma extract_text_empty (response : JsVal) :
  lacks_text response = true ->
  content_free_of_null response = true ->
  VerifiableClaude.extract_text response = Ok (JStr "").
Proof.
  destruct response as [ | | b | n | str | items | fields]; try discriminate.
  unfold lacks_text, content_free_of_null, VerifiableClaude.extract_text.
  cbn [get bind Monad_Outcome].
  destruct (lookup "content" fields) as [ | | b | n | str | items | fs];
    try reflexivity.
  intros Htext Hnull.
  apply negb_true_iff in Htext. apply negb_true_iff in Hnull.
  rewrite (find_text_none items Hnull Htext). reflexivity.
Qed.

(** C9, as amended: when the witness network returns a proof, the
    response is extracted from it and [JSON.parse] succeeds on it, and the
    parsed object has no array field [content], or a [content] array in
    which no item is [null] and no item has type ["text"], then [generate]
    returns a fully constructed result whose [text] is the empty string. *)
Theorem transcript_generate_text_defaults_to_empty
  (self : VerifiableClaude.t) (options : ClaudeGenerateOptions.t) (w : World)
  (messages : list Message.t) (proof responseJson response : JsVal) :
  VerifiableClaude.build_messages options = Some messages ->
  answer w (zkFetch (VerifiableClaude.reclaimClient self)
              (VerifiableClaude.zkFetch_args self
                 (VerifiableClaude.build_body options messages))) = Ok proof ->
  truthy proof = true ->
  VerifiableClaude.extracted_response proof = Ok responseJson ->
  truthy responseJson = true ->
  JSON_parse responseJson = Ok response ->
  lacks_text response = true ->
  content_free_of_null response = true ->
  completion w (VerifiableClaude.generate self options)
  = Ok {| VerifiableClaudeResult.text := JStr "";
          VerifiableClaudeResult.proof := proof;
          VerifiableClaudeResult.timestamp := builtin w Date_now;
          VerifiableClaudeResult.model :=
            string_or (ClaudeGenerateOptions.model options) "claude-3-5-sonnet-20241022";
          VerifiableClaudeResult.provider := reclaim;
          VerifiableClaudeResult.rawResponse := response |}.
Proof.
  intros Em Ezk Hproof Eresp Hresp Eparse Htext Hnull.
  unfold completion, VerifiableClaude.generate. rewrite Em.
  cbn -[VerifiableClaude.extracted_response JSON_parse VerifiableClaude.extract_text
        truthy VerifiableClaude.build_body].
  rewrite Ezk.
  cbn -[VerifiableClaude.extracted_response JSON_parse VerifiableClaude.extract_text
        truthy VerifiableClaude.build_body].
  rewrite Hproof.
  cbn -[VerifiableClaude.extracted_response JSON_parse VerifiableClaude.extract_text
        truthy VerifiableClaude.build_body].
  rewrite Eresp.
  cbn -[VerifiableClaude.extracted_response JSON_parse VerifiableClaude.extract_text
        truthy VerifiableClaude.build_body].
  rewrite Hresp.
  cbn -[VerifiableClaude.extracted_response JSON_parse VerifiableClaude.extract_text
        truthy VerifiableClaude.build_body].
  rewrite Eparse.
  cbn -[VerifiableClaude.extracted_response JSON_parse VerifiableClaude.extract_text
        truthy VerifiableClaude.build_body].
  rewrite (extract_text_empty response Htext Hnull). reflexivity.
Qed.

(** *** Re-execution *)

(** C4, as amended: [verify] of the re-execution client sends exactly one
    request to the provider.  Its model, messages and seed are those of the
    attestation; its [max_tokens] is the attestation's [maxTokens], unless
    that is absent, [0] or [NaN], in which case it is 1024; its
    [temperature] is the attestation's, unless that is absent, in which
    case it is 0; it has no stop sequences.  When the provider answers,
    [outputMatches] is true if and only if the text of the first choice
    (the empty string when there is none) is the same string as
    [result.text], and that text is returned as [reExecutedOutput]. *)
Theorem reexecution_replays_the_attestation
  (self : VerifiableEigenAI.t) (result : EigenAIResult.t) (w : World) :
  exists req,
    dispatched w (VerifiableEigenAI.verify self result)
    = [chat_completions_create (VerifiableEigenAI.client self) req]
    /\ cr_model req = JStr (EigenAIAttestation.model (EigenAIResult.attestation result))
    /\ cr_messages req
       = map VerifiableEigenAI.chat_message
           (RequestParams.messages
              (EigenAIAttestation.requestParams (EigenAIResult.attestation result)))
    /\ cr_seed req = JNum (EigenAIAttestation.seed (EigenAIResult.attestation result))
    /\ cr_max_tokens req
       = JNum (number_or
                 (RequestParams.maxTokens
                    (EigenAIAttestation.requestParams (EigenAIResult.attestation result)))
                 (num_of_Z 1024))
    /\ cr_temperature req
       = JNum (number_coalesce
                 (RequestParams.temperature
                    (EigenAIAttestation.requestParams (EigenAIResult.attestation result)))
                 (num_of_Z 0))
    /\ cr_stop req = JUndefined
    /\ (forall response,
          answer w (chat_completions_create (VerifiableEigenAI.client self) req)
          = Ok response ->
          exists res,
            completion w (VerifiableEigenAI.verify self result) = Ok res
            /\ (outputMatches res = Some true
                <-> VerifiableEigenAI.first_content response = EigenAIResult.text result)
            /\ reExecutedOutput res = Some (VerifiableEigenAI.first_content response)).
Proof.
  set (attestation := EigenAIResult.attestation result).
  set (requestParams := EigenAIAttestation.requestParams attestation).
  exists {| cr_model := JStr (EigenAIAttestation.model attestation);
            cr_messages :=
              map VerifiableEigenAI.chat_message (RequestParams.messages requestParams);
            cr_max_tokens :=
              or_else (opt_js JNum (RequestParams.maxTokens requestParams))
                      (JNum (num_of_Z 1024));
            cr_temperature :=
              coalesce (opt_js JNum (RequestParams.temperature requestParams))
                       (JNum (num_of_Z 0));
            cr_seed := JNum (EigenAIAttestation.seed attestation);
            cr_stop := JUndefined |}.
  unfold dispatched, calls_of, completion, VerifiableEigenAI.verify.
  fold attestation. fold requestParams.
  cbn -[or_else coalesce String.eqb].
  split; [ | split; [ | split; [ | split; [ | split; [ | split; [ | split ] ] ] ] ] ];
    try reflexivity.
  - match goal with
    | |- context [answer w ?r] => destruct (answer w r) as [response | fault]
    end; reflexivity.
  - unfold or_else, number_or.
    destruct (RequestParams.maxTokens requestParams) as [n | ]; cbn; [ | reflexivity ].
    destruct (num_truthy n); reflexivity.
  - destruct (RequestParams.temperature requestParams) as [t | ]; reflexivity.
  - intros response E. rewrite E. cbn -[String.eqb].
    eexists. split; [ reflexivity | ]. cbn -[String.eqb]. split; [ | reflexivity ].
    rewrite <- String.eqb_eq. split; [ congruence | intros ->; reflexivity ].
Qed.

(** *** Serialized proofs *)

Lemma JSON_parse_string_value (text : string) :
  JSON_parse (JStr text) = JSON_parse_string text.
Proof. reflexivity. Qed.

Lemma JSON_parse_undefined : JSON_parse JUndefined = JSON_parse_string "undefined".
Proof. reflexivity. Qed.

Lemma map_outcome_messages (messages : list Message.t) :
  VerifiableEigenAI.map_outcome
    (fun m => role <- get m "role" ;;
              content <- get m "content" ;;
              ret {| cm_role := role; cm_content := content |})
    (map js_of_message messages)
  = Ok (map VerifiableEigenAI.chat_message messages).
Proof.
  induction messages as [ | m rest IH]; [ reflexivity | ].
  cbn [map VerifiableEigenAI.map_outcome]. rewrite IH. reflexivity.
Qed.

(** Reading a typed attestation through its run-time object gives the
    request [verify] builds from the typed fields. *)
Lemma replay_request_typed (attestation : EigenAIAttestation.t) :
  VerifiableEigenAI.replay_request (VerifiableEigenAI.js_of_attestation attestation)
  = Ok {| cr_model := JStr (EigenAIAttestation.model attestation);
          cr_messages :=
            map VerifiableEigenAI.chat_message
              (RequestParams.messages (EigenAIAttestation.requestParams attestation));
          cr_max_tokens :=
            or_else
              (opt_js JNum
                 (RequestParams.maxTokens (EigenAIAttestation.requestParams attestation)))
              (JNum (num_of_Z 1024));
          cr_temperature :=
            coalesce
              (opt_js JNum
                 (RequestParams.temperature (EigenAIAttestation.requestParams attestation)))
              (JNum (num_of_Z 0));
          cr_seed := JNum (EigenAIAttestation.seed attestation);
          cr_stop := JUndefined |}.
Proof.
  destruct attestation as [seed model requestId signatures [messages temperature maxTokens]].
  unfold VerifiableEigenAI.replay_request, VerifiableEigenAI.js_of_attestation,
    VerifiableEigenAI.js_of_requestParams.
  destruct requestId, signatures, temperature, maxTokens;
    cbn -[VerifiableEigenAI.map_outcome or_else coalesce];
    rewrite map_outcome_messages; reflexivity.
Qed.

(** C1, as amended: let [r] be a result whose payload (the proof, the
    attestation) survives [JSON.parse(JSON.stringify(payload))].  For the
    re-execution client, [verifySerializedProof(serializeResult(r))] makes
    the same call and returns the same VerificationResult as [verify(r)].
    For the transcript-proof client it makes the same call and returns the
    same [isValid] and [error]; the whole VerificationResult is the same
    when the client's endpoint is the default one (the static verifier
    reports the default endpoint whatever the client is configured with). *)
Theorem serialized_round_trip
  (claude : VerifiableClaude.t) (eigen : VerifiableEigenAI.t)
  (claude_result : VerifiableClaudeResult.t) (eigen_result : EigenAIResult.t)
  (w : World) :
  (survives_json
     (VerifiableEigenAI.js_of_attestation (EigenAIResult.attestation eigen_result)) ->
   exec w (VerifiableEigenAI.verifySerializedProof eigen
             (OfEigenAI (VerifiableEigenAI.serializeResult eigen eigen_result)))
   = exec w (VerifiableEigenAI.verify eigen eigen_result))
  /\ (survives_json (VerifiableClaudeResult.proof claude_result) ->
      calls_of w (VerifiableClaude.verifySerializedProof
                    (OfClaude (VerifiableClaude.serializeResult claude claude_result)))
      = calls_of w (VerifiableClaude.verify claude claude_result)
      /\ verdict (completion w (VerifiableClaude.verifySerializedProof
                     (OfClaude (VerifiableClaude.serializeResult claude claude_result))))
         = verdict (completion w (VerifiableClaude.verify claude claude_result))
      /\ (VerifiableClaude.endpoint claude = VerifiableClaude.ANTHROPIC_API_ENDPOINT ->
          exec w (VerifiableClaude.verifySerializedProof
                    (OfClaude (VerifiableClaude.serializeResult claude claude_result)))
          = exec w (VerifiableClaude.verify claude claude_result))).
Proof.
  unfold survives_json. split.
  - intros Hatt.
    unfold VerifiableEigenAI.verifySerializedProof, VerifiableEigenAI.verify.
    cbn [serialized_attestationJson VerifiableEigenAI.serializeResult
         SerializedEigenAIProof.attestationJson].
    rewrite JSON_parse_string_value, Hatt.
    cbn -[VerifiableEigenAI.replay_request VerifiableEigenAI.js_of_attestation
          or_else coalesce String.eqb].
    rewrite replay_request_typed.
    cbn -[or_else coalesce String.eqb].
    match goal with
    | |- context [answer w ?r] => destruct (answer w r) as [response | fault]
    end; cbn -[String.eqb]; [ | reflexivity ].
    rewrite (String.eqb_sym (EigenAIResult.text eigen_result)). reflexivity.
  - intros Hproof.
    unfold calls_of, completion, VerifiableClaude.verifySerializedProof,
      VerifiableClaude.verify.
    cbn [serialized_proofJson VerifiableClaude.serializeResult
         SerializedClaudeProof.proofJson].
    rewrite JSON_parse_string_value, Hproof.
    split; [ | split ].
    + cbn.
      destruct (answer w (verifyProof (VerifiableClaudeResult.proof claude_result)));
        reflexivity.
    + cbn.
      destruct (answer w (verifyProof (VerifiableClaudeResult.proof claude_result)));
        reflexivity.
    + intros Hendpoint. rewrite Hendpoint. reflexivity.
Qed.

(** C6, as amended: a serialized proof of one strategy handed to the
    verifier of the other never yields [isValid] true.  The verifier reads
    the payload field of its own strategy, finds [undefined], and
    [JSON.parse] rejects it: the result has [isValid] false (and
    [outputMatches] false for the re-execution client) and carries the
    message of the parser's error.  The provider tag is not read, and the
    result is the one a proof of the verifier's own strategy gets when its
    payload is the text [undefined]: no distinct provider-mismatch error
    exists. *)
Theorem cross_strategy_proof_is_rejected_by_the_parser
  (eigen : VerifiableEigenAI.t)
  (claude_proof : SerializedClaudeProof.t) (eigen_proof : SerializedEigenAIProof.t)
  (fault : Thrown) :
  JSON_parse_string "undefined" = Threw fault ->
  (exists res,
     VerifiableEigenAI.verifySerializedProof eigen (OfClaude claude_proof) = Resolve res
     /\ reports fault res /\ outputMatches res = Some false)
  /\ (exists res,
        VerifiableClaude.verifySerializedProof (OfEigenAI eigen_proof) = Resolve res
        /\ reports fault res)
  /\ (forall own : SerializedEigenAIProof.t,
        SerializedEigenAIProof.attestationJson own = "undefined" ->
        VerifiableEigenAI.verifySerializedProof eigen (OfClaude claude_proof)
        = VerifiableEigenAI.verifySerializedProof eigen (OfEigenAI own))
  /\ (forall own : SerializedClaudeProof.t,
        SerializedClaudeProof.proofJson own = "undefined" ->
        VerifiableClaude.verifySerializedProof (OfEigenAI eigen_proof)
        = VerifiableClaude.verifySerializedProof (OfClaude own)).
Proof.
  intros E.
  split; [ | split; [ | split ] ].
  - unfold VerifiableEigenAI.verifySerializedProof.
    cbn [serialized_attestationJson]. rewrite JSON_parse_undefined, E.
    eexists. split; [ reflexivity | split; [ split; reflexivity | reflexivity ] ].
  - unfold VerifiableClaude.verifySerializedProof.
    cbn [serialized_proofJson]. rewrite JSON_parse_undefined, E.
    eexists. split; [ reflexivity | split; reflexivity ].
  - intros own Eown. unfold VerifiableEigenAI.verifySerializedProof.
    cbn [serialized_attestationJson].
    rewrite Eown, JSON_parse_undefined, JSON_parse_string_value, E. reflexivity.
  - intros own Eown. unfold VerifiableClaude.verifySerializedProof.
    cbn [serialized_proofJson].
    rewrite Eown, JSON_parse_undefined, JSON_parse_string_value. reflexivity.
Qed.

End Verification.

(** ** Closed instances *)

(** C1, counterexample: a client configured with a proxy endpoint; the
    proof survives the JSON round trip and both calls accept it, but the
    in-memory verification reports the proxy endpoint and the serialized
    one the default endpoint. *)
Lemma serialized_round_trip_counterexample :
  survives_json (RT := MiniJson.runtime) (VerifiableClaudeResult.proof Demo.claude_result)
  /\ completion Demo.w (VerifiableClaude.verify Demo.proxied_claude Demo.claude_result)
     = Ok {| isValid := true;
             verifiedEndpoint := Some "https://proxy.example/v1/messages";
             error := None; outputMatches := None; reExecutedOutput := None |}
  /\ completion Demo.w
       (VerifiableClaude.verifySerializedProof (RT := MiniJson.runtime)
          (OfClaude (VerifiableClaude.serializeResult (RT := MiniJson.runtime)
                       Demo.proxied_claude Demo.claude_result)))
     = Ok Demo.accepted
  /\ completion Demo.w
       (VerifiableClaude.verifySerializedProof (RT := MiniJson.runtime)
          (OfClaude (VerifiableClaude.serializeResult (RT := MiniJson.runtime)
                       Demo.proxied_claude Demo.claude_result)))
     <> completion Demo.w (VerifiableClaude.verify Demo.proxied_claude Demo.claude_result).
Proof.
  split; [ vm_compute; reflexivity | ].
  split; [ vm_compute; reflexivity | ].
  split; [ vm_compute; reflexivity | ].
  vm_compute. discriminate.
Qed.

(** The default clients and the results of [Demo]. *)
Lemma serialized_round_trip_witness :
  exec Demo.w
    (VerifiableEigenAI.verifySerializedProof (RT := MiniJson.runtime) Demo.eigen
       (OfEigenAI (VerifiableEigenAI.serializeResult (RT := MiniJson.runtime)
                     Demo.eigen Demo.eigen_result)))
  = exec Demo.w (VerifiableEigenAI.verify Demo.eigen Demo.eigen_result)
  /\ exec Demo.w
       (VerifiableClaude.verifySerializedProof (RT := MiniJson.runtime)
          (OfClaude (VerifiableClaude.serializeResult (RT := MiniJson.runtime)
                       Demo.claude Demo.claude_result)))
     = exec Demo.w (VerifiableClaude.verify Demo.claude Demo.claude_result).
Proof.
  destruct (@serialized_round_trip MiniJson.runtime Demo.claude Demo.eigen
              Demo.claude_result Demo.eigen_result Demo.w)
    as [Heigen Hclaude].
  split.
  - apply Heigen. vm_compute. reflexivity.
  - apply Hclaude; [ vm_compute; reflexivity | reflexivity ].
Defined.

(** C2, counterexample: for a client configured with the endpoint
    [https://proxy.example/v1], the static [verifySerializedProof] accepts
    the proof and reports [https://api.anthropic.com/v1/messages], not the
    configured endpoint. *)
Lemma transcript_verifiedEndpoint_counterexample :
  VerifiableClaude.endpoint Demo.proxied_claude = "https://proxy.example/v1"
  /\ completion Demo.w
       (VerifiableClaude.verifySerializedProof (RT := MiniJson.runtime)
          (OfClaude Demo.claude_serialized))
     = Ok Demo.accepted
  /\ ~ fulfils (binds_endpoint (VerifiableClaude.endpoint Demo.proxied_claude ++ "/messages"))
         (VerifiableClaude.verifySerializedProof (RT := MiniJson.runtime)
            (OfClaude Demo.claude_serialized)).
Proof.
  split; [ reflexivity | ].
  split; [ vm_compute; reflexivity | ].
  intros H.
  destruct (fulfils_completion _ _ Demo.w H) as [res [E Hb]].
  vm_compute in E. inversion E; subst res. vm_compute in Hb. discriminate.
Qed.

(** A client configured with a proxy endpoint, and one with none. *)
Lemma transcript_verifiedEndpoint_witness :
  VerifiableClaude.endpoint
    (VerifiableClaude.constructor (Demo.claude_config (Some "https://proxy.example/v1")))
  = "https://proxy.example/v1"
  /\ VerifiableClaude.endpoint (VerifiableClaude.constructor (Demo.claude_config None))
     = "https://api.anthropic.com/v1".
Proof.
  split.
  - apply (@transcript_verifiedEndpoint_binding MiniJson.runtime
             (Demo.claude_config (Some "https://proxy.example/v1"))
             Demo.claude_result (OfClaude Demo.claude_serialized)).
    + reflexivity.
    + discriminate.
  - apply (@transcript_verifiedEndpoint_binding MiniJson.runtime
             (Demo.claude_config None)
             Demo.claude_result (OfClaude Demo.claude_serialized)).
    left. reflexivity.
Defined.

(** C4, counterexample: an attestation that records [maxTokens: 0], and
    one that records none; the request [verify] sends asks for 1024 tokens
    in both cases. *)
Lemma reexecution_replay_counterexample :
  RequestParams.maxTokens
    (EigenAIAttestation.requestParams
       (EigenAIResult.attestation (Demo.eigen_result_with (Some (num_of_Z 0)))))
  = Some (num_of_Z 0)
  /\ dispatched Demo.w
       (VerifiableEigenAI.verify Demo.eigen (Demo.eigen_result_with (Some (num_of_Z 0))))
     = [chat_completions_create (VerifiableEigenAI.client Demo.eigen)
          {| cr_model := JStr "gpt-oss-120b-f16";
             cr_messages :=
               [{| cm_role := JStr "user"; cm_content := JStr "What is 2 + 2?" |}];
             cr_max_tokens := JNum (num_of_Z 1024);
             cr_temperature := JNum (num_of_Z 0);
             cr_seed := JNum (num_of_Z 999);
             cr_stop := JUndefined |}]
  /\ dispatched Demo.w (VerifiableEigenAI.verify Demo.eigen (Demo.eigen_result_with None))
     = dispatched Demo.w
         (VerifiableEigenAI.verify Demo.eigen (Demo.eigen_result_with (Some (num_of_Z 0))))
  /\ JNum (num_of_Z 1024) <> JNum (num_of_Z 0).
Proof.
  split; [ reflexivity | ].
  split; [ vm_compute; reflexivity | ].
  split; [ vm_compute; reflexivity | discriminate ].
Qed.

(** The provider answers ["4"], the text of the result. *)
Lemma reexecution_replay_witness :
  exists res,
    completion Demo.w (VerifiableEigenAI.verify Demo.eigen Demo.eigen_result) = Ok res
    /\ (outputMatches res = Some true
        <-> VerifiableEigenAI.first_content (Demo.completion_of "4")
            = EigenAIResult.text Demo.eigen_result)
    /\ reExecutedOutput res
       = Some (VerifiableEigenAI.first_content (Demo.completion_of "4")).
Proof.
  destruct (reexecution_replays_the_attestation Demo.eigen Demo.eigen_result Demo.w)
    as [req [_ [_ [_ [_ [_ [_ [_ H]]]]]]]].
  apply (H (Demo.completion_of "4")). reflexivity.
Defined.

(** C5, counterexample: the collaborator throws the string "rate limited",
    a value that is not an [Error]; both clients return the text
    "Verification failed" as [error], not what was thrown. *)
Lemma verification_faults_counterexample :
  completion (Demo.throwing (JStr "rate limited"))
    (VerifiableClaude.verify Demo.claude Demo.claude_result)
  = Ok {| isValid := false;
          verifiedEndpoint := None;
          error := Some "Verification failed";
          outputMatches := None;
          reExecutedOutput := None |}
  /\ completion (Demo.throwing (JStr "rate limited"))
       (VerifiableEigenAI.verify Demo.eigen Demo.eigen_result)
     = Ok {| isValid := false;
             verifiedEndpoint := None;
             error := Some "Verification failed";
             outputMatches := Some false;
             reExecutedOutput := None |}
  /\ Some "Verification failed" <> Some "rate limited".
Proof.
  split; [ reflexivity | ]. split; [ reflexivity | discriminate ].
Qed.

(** A truncated payload, and a provider that is down. *)
Lemma verification_faults_witness :
  (exists res,
     VerifiableClaude.verifySerializedProof (RT := MiniJson.runtime)
       (OfClaude Demo.claude_truncated)
     = Resolve res
     /\ reports (SyntaxError "Unexpected token { in JSON at position 0") res)
  /\ completion (Demo.broken "socket hang up")
       (VerifiableEigenAI.verify Demo.eigen Demo.eigen_result)
     = Ok {| isValid := false;
             verifiedEndpoint := None;
             error := Some "socket hang up";
             outputMatches := Some false;
             reExecutedOutput := None |}.
Proof.
  destruct (@verification_faults_are_returned MiniJson.runtime Demo.claude Demo.eigen
              Demo.claude_result Demo.eigen_result (OfClaude Demo.claude_truncated))
    as [_ [_ [Hverify [_ [Hparse _]]]]].
  split.
  - apply Hparse. vm_compute. reflexivity.
  - destruct Hverify as [Hfault _]. vm_compute. reflexivity.
Defined.

(** C6, counterexample: the re-execution verifier, handed a serialized
    transcript proof, returns the error of the JSON parser, the same result
    it returns for a proof of its own strategy whose payload is the text
    [undefined]; so does the transcript verifier handed a serialized
    re-execution proof.  No error names a provider mismatch. *)
Lemma cross_strategy_counterexample :
  serialized_provider (OfClaude Demo.claude_serialized) = reclaim
  /\ VerifiableEigenAI.verifySerializedProof (RT := MiniJson.runtime) Demo.eigen
       (OfClaude Demo.claude_serialized)
     = Resolve {| isValid := false;
                  verifiedEndpoint := None;
                  error := Some "Unexpected token u in JSON at position 0";
                  outputMatches := Some false;
                  reExecutedOutput := None |}
  /\ VerifiableEigenAI.verifySerializedProof (RT := MiniJson.runtime) Demo.eigen
       (OfEigenAI Demo.eigen_undefined_payload)
     = VerifiableEigenAI.verifySerializedProof (RT := MiniJson.runtime) Demo.eigen
         (OfClaude Demo.claude_serialized)
  /\ VerifiableClaude.verifySerializedProof (RT := MiniJson.runtime)
       (OfEigenAI Demo.eigen_serialized)
     = Resolve Demo.rejected_by_parser.
Proof.
  split; [ reflexivity | ].
  split; [ vm_compute; reflexivity | ].
  split; vm_compute; reflexivity.
Qed.

(** The parser of [MiniJson] rejects the text [undefined]. *)
Lemma cross_strategy_witness :
  exists res,
    VerifiableEigenAI.verifySerializedProof (RT := MiniJson.runtime) Demo.eigen
      (OfClaude Demo.claude_serialized)
    = Resolve res
    /\ reports (SyntaxError "Unexpected token u in JSON at position 0") res
    /\ outputMatches res = Some false.
Proof.
  apply (@cross_strategy_proof_is_rejected_by_the_parser MiniJson.runtime Demo.eigen
           Demo.claude_serialized Demo.eigen_serialized
           (SyntaxError "Unexpected token u in JSON at position 0")).
  vm_compute. reflexivity.
Defined.

(** C7, counterexample: [generate] called with an empty [messages] array
    and no prompt.  The re-execution client sends the provider a request
    with no message and returns a result; the transcript-proof client
    sends the witness network a request whose body has an empty [messages]
    array. *)
Lemma generate_empty_messages_counterexample :
  dispatched Demo.w
    (VerifiableEigenAI.generate Demo.eigen
       (Demo.eigen_options (Some []) None (Some (num_of_Z 1))))
  = [chat_completions_create (VerifiableEigenAI.client Demo.eigen)
       {| cr_model := JStr "gpt-oss-120b-f16";
          cr_messages := [];
          cr_max_tokens := JNum (num_of_Z 1024);
          cr_temperature := JNum (num_of_Z 0);
          cr_seed := JNum (num_of_Z 1);
          cr_stop := JUndefined |}]
  /\ completion Demo.w
       (VerifiableEigenAI.generate Demo.eigen
          (Demo.eigen_options (Some []) None (Some (num_of_Z 1))))
     = Ok (Demo.generated [] (num_of_Z 1))
  /\ dispatched Demo.w
       (VerifiableClaude.generate (RT := MiniJson.runtime) Demo.claude
          (Demo.claude_options (Some []) None))
     = [zkFetch (VerifiableClaude.reclaimClient Demo.claude)
          (VerifiableClaude.zkFetch_args (RT := MiniJson.runtime) Demo.claude
             (JObj [("model", JStr "claude-3-5-sonnet-20241022");
                    ("max_tokens", JNum (num_of_Z 1024));
                    ("messages", JArr []);
                    ("temperature", JNum (num_of_Z 1))]))].
Proof.
  split; [ vm_compute; reflexivity | ].
  split; vm_compute; reflexivity.
Qed.

(** An empty prompt, and a prompt alone. *)
Lemma generate_dispatch_witness :
  (dispatched Demo.w
     (VerifiableClaude.generate (RT := MiniJson.runtime) Demo.claude
        (Demo.claude_options None (Some "")))
   = []
   /\ completion Demo.w
        (VerifiableClaude.generate (RT := MiniJson.runtime) Demo.claude
           (Demo.claude_options None (Some "")))
      = Threw (Error "Either 'messages' or 'prompt' must be provided"))
  /\ exists req,
       dispatched Demo.w
         (VerifiableEigenAI.generate Demo.eigen
            (Demo.eigen_options None (Some "What is 2 + 2?") None))
       = [chat_completions_create (VerifiableEigenAI.client Demo.eigen) req]
       /\ cr_messages req
          = map VerifiableEigenAI.chat_message
              (VerifiableEigenAI.system_messages
                 (Demo.eigen_options None (Some "What is 2 + 2?") None)
                 ++ [{| Message.role := user; Message.content := "What is 2 + 2?" |}])%list.
Proof.
  destruct (@generate_dispatches_what_is_provided MiniJson.runtime Demo.claude Demo.eigen
              (Demo.claude_options None (Some ""))
              (Demo.eigen_options None (Some "What is 2 + 2?") None) Demo.w)
    as [Hnone [_ [_ [_ [_ Hprompt]]]]].
  split.
  - apply Hnone; [ reflexivity | right; reflexivity ].
  - apply Hprompt; [ reflexivity | reflexivity | discriminate ].
Defined.

(** The product is rounded before it is floored: for the draw
    [2147483649 / 2^32] the exact product is [2^30 - 2^-32], the double
    nearest to it is [2^30], and the seed is 1073741824. *)
Example seed_of_a_rounded_product :
  completion (Demo.world Demo.mockProof "4" (2147483649 # 4294967296))
    VerifiableEigenAI.generateSeed
  = Ok (Finite 1073741824)
  /\ Qfloor ((2147483649 # 4294967296) * inject_Z 2147483647) = 1073741823%Z.
Proof. split; vm_compute; reflexivity. Qed.


(** C9, counterexample: the provider's response parses, and its
    [content] array holds [null] and no item of type ["text"]; the search
    for the text item throws on the [null] item and [generate] fails. *)
Lemma transcript_generate_null_item_counterexample :
  VerifiableClaude.extracted_response (Demo.proof_with Demo.null_content_response)
  = Ok (JStr (MiniJson.stringify Demo.null_content_response))
  /\ MiniJson.parse (MiniJson.stringify Demo.null_content_response)
     = Ok Demo.null_content_response
  /\ lacks_text Demo.null_content_response = true
  /\ completion (Demo.world (Demo.proof_with Demo.null_content_response) "4" (1 # 2))
       (VerifiableClaude.generate (RT := MiniJson.runtime) Demo.claude
          (Demo.claude_options None (Some "Hello")))
     = Threw (Error ("Verifiable generation failed: "
                       ++ "Cannot read properties of null (reading 'type')")).
Proof.
  split; [ reflexivity | ].
  split; [ vm_compute; reflexivity | ].
  split; vm_compute; reflexivity.
Qed.

(** A response whose only content item is a tool call. *)
Lemma transcript_generate_text_witness :
  completion (Demo.world (Demo.proof_with Demo.tool_response) "4" (1 # 2))
    (VerifiableClaude.generate (RT := MiniJson.runtime) Demo.claude
       (Demo.claude_options None (Some "Hello")))
  = Ok {| VerifiableClaudeResult.text := JStr "";
          VerifiableClaudeResult.proof := Demo.proof_with Demo.tool_response;
          VerifiableClaudeResult.timestamp := num_of_Z 1700000000000;
          VerifiableClaudeResult.model := "claude-3-5-sonnet-20241022";
          VerifiableClaudeResult.provider := reclaim;
          VerifiableClaudeResult.rawResponse := Demo.tool_response |}.
Proof.
  apply (@transcript_generate_text_defaults_to_empty MiniJson.runtime Demo.claude
           (Demo.claude_options None (Some "Hello"))
           (Demo.world (Demo.proof_with Demo.tool_response) "4" (1 # 2))
           [{| Message.role := user; Message.content := "Hello" |}]
           (Demo.proof_with Demo.tool_response)
           (JStr (MiniJson.stringify Demo.tool_response))
           Demo.tool_response);
    vm_compute; reflexivity.
Defined.

(** A serialized proof whose text, model and timestamp were changed. *)
Lemma serialized_transcript_verdict_witness :
  SerializedClaudeProof.text Demo.claude_tampered
  <> SerializedClaudeProof.text Demo.claude_serialized
  /\ VerifiableClaude.verifySerializedProof (RT := MiniJson.runtime)
       (OfClaude Demo.claude_tampered)
     = VerifiableClaude.verifySerializedProof (RT := MiniJson.runtime)
         (OfClaude Demo.claude_serialized).
Proof.
  split.
  - vm_compute. discriminate.
  - apply (@serialized_transcript_verdict_reads_proofJson_only MiniJson.runtime
             Demo.claude_tampered Demo.claude_serialized).
    reflexivity.
Defined.

(** ** Further properties of the two clients *)

Section Generation.
Context {RT : JsRuntime}.

Ltac run_step :=
  match goal with
  | |- context [answer ?w ?r] => destruct (answer w r) as [? | ?]
  | |- context [truthy ?v] => destruct (truthy v)
  | |- context [VerifiableClaude.extracted_response ?v] =>
      destruct (VerifiableClaude.extracted_response v) as [? | ?]
  | |- context [JSON_parse ?v] => destruct (JSON_parse v) as [? | ?]
  | |- context [VerifiableClaude.extract_text ?v] =>
      destruct (VerifiableClaude.extract_text v) as [? | ?]
  end;
  cbn -[VerifiableClaude.extracted_response JSON_parse VerifiableClaude.extract_text
        truthy VerifiableClaude.build_body].

(** One run of [generate] of the transcript-proof client, step by step. *)
Lemma claude_generate_exec
  (self : VerifiableClaude.t) (options : ClaudeGenerateOptions.t) (w : World)
  (messages : list Message.t) :
  VerifiableClaude.build_messages options = Some messages ->
  exec w (VerifiableClaude.generate self options)
  = let request :=
      zkFetch (VerifiableClaude.reclaimClient self)
        (VerifiableClaude.zkFetch_args self (VerifiableClaude.build_body options messages)) in
    let failed (fault : Thrown) : Outcome VerifiableClaudeResult.t :=
      Threw (Error ("Verifiable generation failed: "
                      ++ caught_message "Unknown error occurred" fault)) in
    match answer w request with
    | Threw fault => ([Awaited request], failed fault)
    | Ok proof =>
        if truthy proof then
          match decoded proof with
          | Ok (response, text) =>
              ([Awaited request; Asked Date_now],
               Ok {| VerifiableClaudeResult.text := text;
                     VerifiableClaudeResult.proof := proof;
                     VerifiableClaudeResult.timestamp := builtin w Date_now;
                     VerifiableClaudeResult.model :=
                       string_or (ClaudeGenerateOptions.model options)
                                 "claude-3-5-sonnet-20241022";
                     VerifiableClaudeResult.provider := reclaim;
                     VerifiableClaudeResult.rawResponse := response |})
          | Threw fault => ([Awaited request], failed fault)
          end
        else ([Awaited request], failed (Error "Failed to generate proof - no proof returned"))
    end.
Proof.
  intros E. unfold VerifiableClaude.generate, decoded. rewrite E.
  cbn -[VerifiableClaude.extracted_response JSON_parse VerifiableClaude.extract_text
        truthy VerifiableClaude.build_body].
  repeat run_step; reflexivity.
Qed.

(** One run of [generate] of the re-execution client. *)
Lemma eigen_generate_exec
  (self : VerifiableEigenAI.t) (options : EigenAIGenerateOptions.t) (w : World)
  (messages : list Message.t) :
  VerifiableEigenAI.build_messages options = Some messages ->
  exec w (VerifiableEigenAI.generate self options)
  = let model :=
      string_or (EigenAIGenerateOptions.model options) VerifiableEigenAI.DEFAULT_MODEL in
    let maxTokens :=
      number_or (EigenAIGenerateOptions.maxTokens options) (num_of_Z 1024) in
    let temperature :=
      number_coalesce (EigenAIGenerateOptions.temperature options) (num_of_Z 0) in
    let request :=
      chat_completions_create (VerifiableEigenAI.client self)
        {| cr_model := JStr model;
           cr_messages := map VerifiableEigenAI.chat_message messages;
           cr_max_tokens := JNum maxTokens;
           cr_temperature := JNum temperature;
           cr_seed := JNum (seed_in w options);
           cr_stop :=
             opt_js (fun l => JArr (map JStr l)) (EigenAIGenerateOptions.stop options) |} in
    match answer w request with
    | Threw fault =>
        ((seed_calls options ++ [Awaited request])%list,
         Threw (Error ("EigenAI generation failed: "
                         ++ caught_message "Unknown error occurred" fault)))
    | Ok response =>
        ((seed_calls options ++ [Awaited request; Asked Date_now])%list,
         Ok {| EigenAIResult.text := VerifiableEigenAI.first_content response;
               EigenAIResult.attestation :=
                 {| EigenAIAttestation.seed := seed_in w options;
                    EigenAIAttestation.model := model;
                    EigenAIAttestation.requestId := Some (resp_id response);
                    EigenAIAttestation.signatures := None;
                    EigenAIAttestation.requestParams :=
                      {| RequestParams.messages := messages;
                         RequestParams.temperature := Some temperature;
                         RequestParams.maxTokens := Some maxTokens |} |};
               EigenAIResult.timestamp := builtin w Date_now;
               EigenAIResult.model := model;
               EigenAIResult.provider := eigenai;
               EigenAIResult.rawResponse := response |})
    end.
Proof.
  intros E. unfold VerifiableEigenAI.generate, seed_in, seed_calls. rewrite E.
  destruct (EigenAIGenerateOptions.seed options) as [s | ]; cbn;
    match goal with
    | |- context [answer w ?r] => destruct (answer w r) as [response | fault]
    end; reflexivity.
Qed.

Lemma eigen_generate_exec_not_provided
  (self : VerifiableEigenAI.t) (options : EigenAIGenerateOptions.t) (w : World) :
  VerifiableEigenAI.build_messages options = None ->
  exec w (VerifiableEigenAI.generate self options)
  = (seed_calls options, Threw (Error "Either 'messages' or 'prompt' must be provided")).
Proof.
  intros E. unfold VerifiableEigenAI.generate, seed_calls. rewrite E.
  destruct (EigenAIGenerateOptions.seed options) as [s | ]; reflexivity.
Qed.

(** The default [maxTokens] of [generate] is never falsy. *)
Lemma number_or_truthy (a : option number) :
  num_truthy (number_or a (num_of_Z 1024)) = true.
Proof.
  unfold number_or. destruct a as [n | ]; [ | reflexivity ].
  destruct (num_truthy n) eqn:E; [ exact E | reflexivity ].
Qed.



(** X3: a result [generate] of the transcript-proof client returns holds
    the proof bundle exactly as the witness network returned it, and its
    [text] and [rawResponse] are what the bundle itself decodes to: the
    text is a function of the proof.  The result is tagged [reclaim] and
    stamped with the clock. *)
Theorem transcript_result_is_decoded_from_its_proof
  (self : VerifiableClaude.t) (options : ClaudeGenerateOptions.t) (w : World)
  (result : VerifiableClaudeResult.t) :
  completion w (VerifiableClaude.generate self options) = Ok result ->
  (exists args,
     answer w (zkFetch (VerifiableClaude.reclaimClient self) args)
     = Ok (VerifiableClaudeResult.proof result)
     /\ calls_of w (VerifiableClaude.generate self options)
        = [Awaited (zkFetch (VerifiableClaude.reclaimClient self) args); Asked Date_now])
  /\ truthy (VerifiableClaudeResult.proof result) = true
  /\ decoded (VerifiableClaudeResult.proof result)
     = Ok (VerifiableClaudeResult.rawResponse result, VerifiableClaudeResult.text result)
  /\ VerifiableClaudeResult.provider result = reclaim
  /\ VerifiableClaudeResult.timestamp result = builtin w Date_now.
Proof.
  unfold completion, calls_of.
  destruct (VerifiableClaude.build_messages options) as [messages | ] eqn:E.
  - rewrite (claude_generate_exec self options w E). cbn zeta.
    destruct (answer w _) as [proof | fault] eqn:Ea; cbn [fst snd]; [ | discriminate ].
    destruct (truthy proof) eqn:Ht; cbn [fst snd]; [ | discriminate ].
    destruct (decoded proof) as [[response text] | fault] eqn:Ed; cbn [fst snd];
      [ | discriminate ].
    intros H. inversion H; subst result; clear H. cbn.
    split; [ eexists; split; [ exact Ea | reflexivity ] | ].
    split; [ exact Ht | ]. split; [ exact Ed | ]. split; reflexivity.
  - rewrite (claude_generate_not_provided self options E). discriminate.
Qed.

(** The search stops at the first item of type ["text"]. *)
Lemma find_text_first (before after : list JsVal) (item : list (string * JsVal)) :
  existsb nullish before = false ->
  existsb is_text_item before = false ->
  strict_eq_str (lookup "type" item) "text" = true ->
  VerifiableClaude.find_text (before ++ JObj item :: after) = Ok (JObj item).
Proof.
  intros Hnull Htext Hitem.
  induction before as [ | x rest IH]; cbn [app VerifiableClaude.find_text].
  - cbn. rewrite Hitem. reflexivity.
  - cbn [existsb] in Hnull, Htext.
    apply orb_false_iff in Hnull as [Hx Hnull].
    apply orb_false_iff in Htext as [Hx' Htext].
    specialize (IH Hnull Htext).
    destruct x; cbn in Hx, Hx' |- *; try discriminate; try rewrite Hx'; exact IH.
Qed.

(** X4: the text [generate] takes from a response is that of the first
    item of type ["text"] of its [content] array, or the empty string when
    that item's [text] is missing or falsy; the items after it are not
    looked at, whatever they are. *)
Theorem text_is_taken_from_the_first_text_item
  (fields item : list (string * JsVal)) (before after : list JsVal) :
  lookup "content" fields = JArr (before ++ JObj item :: after) ->
  existsb nullish before = false ->
  existsb is_text_item before = false ->
  strict_eq_str (lookup "type" item) "text" = true ->
  VerifiableClaude.extract_text (JObj fields)
  = Ok (or_else (lookup "text" item) (JStr "")).
Proof.
  intros Hcontent Hnull Htext Hitem.
  unfold VerifiableClaude.extract_text. cbn [get bind Monad_Outcome].
  rewrite Hcontent, (find_text_first before after item Hnull Htext Hitem).
  reflexivity.
Qed.

(** X5: verifying a transcript proof contacts neither the inference
    provider nor the witness network.  [verify] makes one call, to the
    proof verifier, with the proof of the result; the static
    [verifySerializedProof] makes that one call with the parsed payload,
    and no call at all when the payload does not parse. *)
Theorem transcript_verification_calls_the_verifier_only
  (self : VerifiableClaude.t) (result : VerifiableClaudeResult.t)
  (serialized : SerializedProof) (w : World) :
  calls_of w (VerifiableClaude.verify self result)
  = [Awaited (verifyProof (VerifiableClaudeResult.proof result))]
  /\ (forall proof,
        JSON_parse (serialized_proofJson serialized) = Ok proof ->
        calls_of w (VerifiableClaude.verifySerializedProof serialized)
        = [Awaited (verifyProof proof)])
  /\ (forall fault,
        JSON_parse (serialized_proofJson serialized) = Threw fault ->
        calls_of w (VerifiableClaude.verifySerializedProof serialized) = []).
Proof.
  unfold calls_of. split; [ | split ].
  - cbn. destruct (answer w (verifyProof (VerifiableClaudeResult.proof result)));
      reflexivity.
  - intros proof E. unfold VerifiableClaude.verifySerializedProof. rewrite E. cbn.
    destruct (answer w (verifyProof proof)); reflexivity.
  - intros fault E. unfold VerifiableClaude.verifySerializedProof. rewrite E.
    reflexivity.
Qed.

(** X6: the endpoint [verify] reports on success is the URL [generate] of
    the same client sends its request to. *)
Theorem transcript_verify_reports_the_url_generate_used
  (self : VerifiableClaude.t) (options : ClaudeGenerateOptions.t)
  (messages : list Message.t) (result : VerifiableClaudeResult.t) (w w' : World) :
  VerifiableClaude.build_messages options = Some messages ->
  exists args,
    dispatched w (VerifiableClaude.generate self options)
    = [zkFetch (VerifiableClaude.reclaimClient self) args]
    /\ forall res,
         completion w' (VerifiableClaude.verify self result) = Ok res ->
         isValid res = true ->
         verifiedEndpoint res = Some (zk_url args).
Proof.
  intros E. eexists. split.
  - apply (claude_generate_dispatched self options w E).
  - unfold completion. cbn.
    destruct (answer w' (verifyProof (VerifiableClaudeResult.proof result)))
      as [valid | fault]; cbn; intros res H; inversion H; subst res; cbn.
    + intros ->. reflexivity.
    + discriminate.
Qed.

(** X7: the API key reaches the witness network in the hidden headers
    only.  Two clients that differ in their API key alone dispatch
    requests with the same URL, method, public headers, body and response
    pattern; the key is the [x-api-key] entry of the secret headers. *)
Theorem api_key_is_confined_to_the_secret_headers
  (config : VerifiableClaudeConfig.t) (other_key : string)
  (options : ClaudeGenerateOptions.t) (messages : list Message.t) (w w' : World) :
  VerifiableClaude.build_messages options = Some messages ->
  exists args args',
    dispatched w (VerifiableClaude.generate (VerifiableClaude.constructor config) options)
    = [zkFetch (VerifiableClaude.reclaimClient (VerifiableClaude.constructor config)) args]
    /\ dispatched w'
         (VerifiableClaude.generate
            (VerifiableClaude.constructor
               {| VerifiableClaudeConfig.apiKey := other_key;
                  VerifiableClaudeConfig.reclaimAppId :=
                    VerifiableClaudeConfig.reclaimAppId config;
                  VerifiableClaudeConfig.reclaimAppSecret :=
                    VerifiableClaudeConfig.reclaimAppSecret config;
                  VerifiableClaudeConfig.endpoint :=
                    VerifiableClaudeConfig.endpoint config |})
            options)
       = [zkFetch (VerifiableClaude.reclaimClient (VerifiableClaude.constructor config))
            args']
    /\ zk_url args = zk_url args'
    /\ zk_method args = zk_method args'
    /\ zk_headers args = zk_headers args'
    /\ zk_body args = zk_body args'
    /\ zk_responseMatches args = zk_responseMatches args'
    /\ zk_headers args = [("Content-Type", "application/json")]
    /\ zk_secret_headers args
       = [("anthropic-version", "2023-06-01");
          ("x-api-key", VerifiableClaudeConfig.apiKey config)]
    /\ zk_secret_headers args'
       = [("anthropic-version", "2023-06-01"); ("x-api-key", other_key)].
Proof.
  intros E.
  eexists. eexists.
  split; [ apply (claude_generate_dispatched _ options w E) | ].
  split; [ rewrite (claude_generate_dispatched _ options w' E); reflexivity | ].
  repeat split.
Qed.

End Generation.

Section Reexecution.
Context {RT : JsRuntime}.

(** One run of [verify] of the re-execution client. *)
Lemma eigen_verify_exec (self : VerifiableEigenAI.t) (result : EigenAIResult.t) (w : World) :
  exec w (VerifiableEigenAI.verify self result)
  = let request :=
      chat_completions_create (VerifiableEigenAI.client self)
        (replayed (EigenAIResult.attestation result)) in
    ([Awaited request],
     match answer w request with
     | Ok response =>
         let matches :=
           String.eqb (VerifiableEigenAI.first_content response)
                      (EigenAIResult.text result) in
         Ok {| isValid := matches;
               outputMatches := Some matches;
               reExecutedOutput := Some (VerifiableEigenAI.first_content response);
               verifiedEndpoint :=
                 if matches then Some (VerifiableEigenAI.endpoint self) else None;
               error := None |}
     | Threw fault =>
         Ok {| isValid := false;
               outputMatches := Some false;
               error := Some (caught_message "Verification failed" fault);
               verifiedEndpoint := None;
               reExecutedOutput := None |}
     end).
Proof.
  unfold VerifiableEigenAI.verify, replayed. cbn -[or_else coalesce String.eqb].
  match goal with
  | |- context [answer w ?r] => destruct (answer w r) as [response | fault]
  end; reflexivity.
Qed.

(** One run of [verifySerializedProof] of the re-execution client. *)
Lemma eigen_verifySerializedProof_exec
  (self : VerifiableEigenAI.t) (serialized : SerializedProof) (w : World) :
  exec w (VerifiableEigenAI.verifySerializedProof self serialized)
  = let failed (fault : Thrown) : VerificationResult :=
      {| isValid := false;
         outputMatches := Some false;
         error := Some (caught_message "Verification failed" fault);
         verifiedEndpoint := None;
         reExecutedOutput := None |} in
    match JSON_parse (serialized_attestationJson serialized) with
    | Threw fault => ([], Ok (failed fault))
    | Ok attestation =>
        match VerifiableEigenAI.replay_request attestation with
        | Threw fault => ([], Ok (failed fault))
        | Ok req =>
            let request := chat_completions_create (VerifiableEigenAI.client self) req in
            ([Awaited request],
             match answer w request with
             | Ok response =>
                 let matches :=
                   strict_eq_str (serialized_text serialized)
                                 (VerifiableEigenAI.first_content response) in
                 Ok {| isValid := matches;
                       outputMatches := Some matches;
                       reExecutedOutput := Some (VerifiableEigenAI.first_content response);
                       verifiedEndpoint :=
                         if matches then Some (VerifiableEigenAI.endpoint self) else None;
                       error := None |}
             | Threw fault => Ok (failed fault)
             end)
        end
    end.
Proof.
  unfold VerifiableEigenAI.verifySerializedProof.
  destruct (JSON_parse (serialized_attestationJson serialized)) as [att | fault];
    [ | reflexivity ].
  cbn -[VerifiableEigenAI.replay_request].
  destruct (VerifiableEigenAI.replay_request att) as [req | fault]; [ | reflexivity ].
  cbn. destruct (answer w _) as [response | fault]; reflexivity.
Qed.

(** What [generate] records is what it sent, stop sequences apart. *)
Lemma generated_attestation_replays
  (self : VerifiableEigenAI.t) (options : EigenAIGenerateOptions.t) (w : World)
  (result : EigenAIResult.t) :
  completion w (VerifiableEigenAI.generate self options) = Ok result ->
  exists req response,
    calls_of w (VerifiableEigenAI.generate self options)
    = (seed_calls options
         ++ [Awaited (chat_completions_create (VerifiableEigenAI.client self) req);
             Asked Date_now])%list
    /\ answer w (chat_completions_create (VerifiableEigenAI.client self) req) = Ok response
    /\ cr_stop req
       = opt_js (fun l => JArr (map JStr l)) (EigenAIGenerateOptions.stop options)
    /\ replayed (EigenAIResult.attestation result) = without_stop req
    /\ EigenAIResult.text result = VerifiableEigenAI.first_content response.
Proof.
  unfold completion, calls_of.
  destruct (VerifiableEigenAI.build_messages options) as [messages | ] eqn:E.
  - rewrite (eigen_generate_exec self options w E). cbn zeta.
    destruct (answer w _) as [response | fault] eqn:Ea; cbn [fst snd]; [ | discriminate ].
    intros H. inversion H; subst result; clear H.
    eexists. exists response.
    split; [ reflexivity | ]. split; [ exact Ea | ]. split; [ reflexivity | ].
    split; [ | reflexivity ].
    unfold replayed, without_stop. cbn -[number_or].
    unfold or_else. cbn -[number_or]. rewrite number_or_truthy. reflexivity.
  - rewrite (eigen_generate_exec_not_provided self options w E). discriminate.
Qed.

Lemma dispatches_app (a b : list Call) : dispatches (a ++ b) = (dispatches a ++ dispatches b)%list.
Proof.
  induction a as [ | c rest IH]; [ reflexivity | ].
  destruct c as [[client args | proof | client req] | b']; cbn; rewrite IH; reflexivity.
Qed.

Lemma dispatches_seed_calls (options : EigenAIGenerateOptions.t) :
  dispatches (seed_calls options) = [].
Proof. unfold seed_calls. destruct (EigenAIGenerateOptions.seed options); reflexivity. Qed.

(** X8: [verify] re-sends the request [generate] sent, without its stop
    sequences.  For every result [generate] returns, the one request of
    [verify] on that result has the model, messages, token limit,
    temperature and seed of the one request [generate] made, and no stop
    sequences, whether or not [generate] sent some. *)
Theorem verify_replays_generate_without_stop_sequences
  (self : VerifiableEigenAI.t) (options : EigenAIGenerateOptions.t) (w w' : World)
  (result : EigenAIResult.t) :
  completion w (VerifiableEigenAI.generate self options) = Ok result ->
  exists req,
    dispatched w (VerifiableEigenAI.generate self options)
    = [chat_completions_create (VerifiableEigenAI.client self) req]
    /\ cr_stop req
       = opt_js (fun l => JArr (map JStr l)) (EigenAIGenerateOptions.stop options)
    /\ dispatched w' (VerifiableEigenAI.verify self result)
       = [chat_completions_create (VerifiableEigenAI.client self) (without_stop req)].
Proof.
  intros H.
  destruct (generated_attestation_replays self options w H)
    as [req [response [Hcalls [_ [Hstop [Hreplay _]]]]]].
  exists req. split; [ | split; [ exact Hstop | ] ].
  - unfold dispatched. rewrite Hcalls, dispatches_app, dispatches_seed_calls. reflexivity.
  - unfold dispatched, calls_of. rewrite eigen_verify_exec. cbn zeta. cbn [fst].
    rewrite Hreplay. reflexivity.
Qed.

(** X9: a result [generate] returned for options without stop sequences
    verifies, as long as the provider still answers that request as it
    did: [verify] returns [isValid] and [outputMatches] true, the text of
    the result as [reExecutedOutput], and the endpoint of the client. *)
Theorem generated_result_verifies
  (self : VerifiableEigenAI.t) (options : EigenAIGenerateOptions.t) (w : World)
  (result : EigenAIResult.t) :
  EigenAIGenerateOptions.stop options = None ->
  completion w (VerifiableEigenAI.generate self options) = Ok result ->
  completion w (VerifiableEigenAI.verify self result)
  = Ok {| isValid := true;
          outputMatches := Some true;
          reExecutedOutput := Some (EigenAIResult.text result);
          verifiedEndpoint := Some (VerifiableEigenAI.endpoint self);
          error := None |}.
Proof.
  intros Hstop H.
  destruct (generated_attestation_replays self options w H)
    as [req [response [_ [Ha [Hs [Hreplay Htext]]]]]].
  rewrite Hstop in Hs. cbn in Hs.
  assert (Hreq : without_stop req = req).
  { destruct req. cbn in Hs. subst. reflexivity. }
  unfold completion. rewrite eigen_verify_exec. cbn zeta. cbn [snd].
  rewrite Hreplay, Hreq, Ha, Htext, String.eqb_refl. reflexivity.
Qed.

(** X10: a third party that holds the serialized form of a generated
    result re-sends, through its own client, the request [generate] sent
    (without its stop sequences), provided the attestation survives the
    JSON round trip. *)
Theorem third_party_replays_the_generated_request
  (self other : VerifiableEigenAI.t) (options : EigenAIGenerateOptions.t) (w w' : World)
  (result : EigenAIResult.t) :
  completion w (VerifiableEigenAI.generate self options) = Ok result ->
  survives_json (VerifiableEigenAI.js_of_attestation (EigenAIResult.attestation result)) ->
  exists req,
    dispatched w (VerifiableEigenAI.generate self options)
    = [chat_completions_create (VerifiableEigenAI.client self) req]
    /\ dispatched w'
         (VerifiableEigenAI.verifySerializedProof other
            (OfEigenAI (VerifiableEigenAI.serializeResult self result)))
       = [chat_completions_create (VerifiableEigenAI.client other) (without_stop req)].
Proof.
  intros H Hjson.
  destruct (generated_attestation_replays self options w H)
    as [req [response [Hcalls [_ [_ [Hreplay _]]]]]].
  exists req. split.
  - unfold dispatched. rewrite Hcalls, dispatches_app, dispatches_seed_calls. reflexivity.
  - unfold dispatched, calls_of. rewrite eigen_verifySerializedProof_exec. cbn zeta.
    cbn [serialized_attestationJson VerifiableEigenAI.serializeResult
         SerializedEigenAIProof.attestationJson].
    rewrite JSON_parse_string_value. unfold survives_json in Hjson. rewrite Hjson.
    rewrite replay_request_typed. fold (replayed (EigenAIResult.attestation result)).
    rewrite Hreplay. reflexivity.
Qed.

(** X11: the re-execution verifier checks the text of a serialized proof.
    Of two serialized proofs with the same attestation and different
    texts, verified against the same provider, at most one is valid; the
    one that is not valid still gets the re-executed output, which is the
    text of the valid one. *)
Theorem serialized_reexecution_text_is_checked
  (self : VerifiableEigenAI.t) (s1 s2 : SerializedEigenAIProof.t) (w : World)
  (res1 res2 : VerificationResult) :
  SerializedEigenAIProof.attestationJson s1 = SerializedEigenAIProof.attestationJson s2 ->
  SerializedEigenAIProof.text s1 <> SerializedEigenAIProof.text s2 ->
  completion w (VerifiableEigenAI.verifySerializedProof self (OfEigenAI s1)) = Ok res1 ->
  completion w (VerifiableEigenAI.verifySerializedProof self (OfEigenAI s2)) = Ok res2 ->
  isValid res1 = true ->
  isValid res2 = false
  /\ error res2 = None
  /\ reExecutedOutput res2 = Some (SerializedEigenAIProof.text s1).
Proof.
  intros Hatt Htext. unfold completion.
  rewrite !eigen_verifySerializedProof_exec. cbn zeta.
  cbn [serialized_attestationJson serialized_text]. rewrite Hatt.
  destruct (JSON_parse _) as [att | fault]; cbn [snd].
  2: { intros H1 _ Hv. inversion H1; subst res1. discriminate Hv. }
  destruct (VerifiableEigenAI.replay_request att) as [req | fault]; cbn [snd].
  2: { intros H1 _ Hv. inversion H1; subst res1. discriminate Hv. }
  destruct (answer w _) as [response | fault].
  2: { intros H1 _ Hv. inversion H1; subst res1. discriminate Hv. }
  cbn -[String.eqb]. intros H1 H2 Hv.
  inversion H1; subst res1. inversion H2; subst res2. cbn -[String.eqb] in Hv |- *.
  apply String.eqb_eq in Hv. rewrite <- Hv.
  split; [ | split; reflexivity ].
  apply String.eqb_neq. congruence.
Qed.

(** X12: every result of [verify] and [verifySerializedProof] of a
    re-execution client reads the same way: the endpoint is set exactly
    when the result is valid, and it is the base URL the client sends its
    requests to; a valid result has no error; and the result has either an
    error (a fault) or the re-executed output (a match or a mismatch),
    never both and never neither. *)
Theorem reexecution_verdicts_are_well_formed
  (config : EigenAIConfig.t) (result : EigenAIResult.t) (serialized : SerializedProof) :
  fulfils (well_formed_verdict
             (oa_baseURL (VerifiableEigenAI.client (VerifiableEigenAI.constructor config))))
          (VerifiableEigenAI.verify (VerifiableEigenAI.constructor config) result)
  /\ fulfils (well_formed_verdict
                (oa_baseURL (VerifiableEigenAI.client (VerifiableEigenAI.constructor config))))
             (VerifiableEigenAI.verifySerializedProof
                (VerifiableEigenAI.constructor config) serialized).
Proof.
  assert (Hfailed : forall url message,
             well_formed_verdict url
               {| isValid := false; outputMatches := Some false;
                  error := Some message; verifiedEndpoint := None;
                  reExecutedOutput := None |}).
  { intros url message. repeat split; cbn; try discriminate; intros H; congruence. }
  assert (Hdone : forall url matches output,
             well_formed_verdict url
               {| isValid := matches; outputMatches := Some matches;
                  reExecutedOutput := Some output;
                  verifiedEndpoint := if matches then Some url else None;
                  error := None |}).
  { intros url matches output. repeat split; cbn; try discriminate. }
  split.
  - cbn -[String.eqb]. intros [response | fault]; [ apply Hdone | apply Hfailed ].
  - unfold VerifiableEigenAI.verifySerializedProof.
    destruct (JSON_parse (serialized_attestationJson serialized)) as [att | fault];
      [ | apply Hfailed ].
    cbn -[VerifiableEigenAI.replay_request].
    destruct (VerifiableEigenAI.replay_request att) as [req | fault]; cbn;
      [ | apply Hfailed ].
    intros [response | fault]; [ apply Hdone | apply Hfailed ].
Qed.

(** X13: a serialized re-execution proof whose payload does not parse,
    or parses to something the request cannot be built from, is rejected
    without any request to the provider; otherwise exactly one request is
    made. *)
Theorem malformed_attestation_never_reaches_the_provider
  (self : VerifiableEigenAI.t) (serialized : SerializedProof) (w : World) :
  (forall fault,
     JSON_parse (serialized_attestationJson serialized) = Threw fault ->
     calls_of w (VerifiableEigenAI.verifySerializedProof self serialized) = [])
  /\ (forall attestation fault,
        JSON_parse (serialized_attestationJson serialized) = Ok attestation ->
        VerifiableEigenAI.replay_request attestation = Threw fault ->
        calls_of w (VerifiableEigenAI.verifySerializedProof self serialized) = [])
  /\ (forall attestation req,
        JSON_parse (serialized_attestationJson serialized) = Ok attestation ->
        VerifiableEigenAI.replay_request attestation = Ok req ->
        calls_of w (VerifiableEigenAI.verifySerializedProof self serialized)
        = [Awaited (chat_completions_create (VerifiableEigenAI.client self) req)]).
Proof.
  unfold calls_of. rewrite eigen_verifySerializedProof_exec. cbn zeta.
  split; [ | split ].
  - intros fault ->. reflexivity.
  - intros att fault -> ->. reflexivity.
  - intros att req -> ->. reflexivity.
Qed.

(** X14: [generate] draws from [Math.random] exactly when no seed is
    supplied, and does so before it looks at the messages: a supplied seed
    (zero included) means no draw; with no seed the draw is the first call,
    also when [generate] then fails for want of messages. *)
Theorem seed_is_drawn_only_when_absent
  (self : VerifiableEigenAI.t) (options : EigenAIGenerateOptions.t) (w : World) :
  (forall s,
     EigenAIGenerateOptions.seed options = Some s ->
     ~ In (Asked Math_random) (calls_of w (VerifiableEigenAI.generate self options)))
  /\ (EigenAIGenerateOptions.seed options = None ->
      exists rest,
        calls_of w (VerifiableEigenAI.generate self options) = Asked Math_random :: rest
        /\ ~ In (Asked Math_random) rest)
  /\ (EigenAIGenerateOptions.seed options = None ->
      VerifiableEigenAI.build_messages options = None ->
      exec w (VerifiableEigenAI.generate self options)
      = ([Asked Math_random],
         Threw (Error "Either 'messages' or 'prompt' must be provided"))).
Proof.
  assert (Hcalls : exists rest,
             calls_of w (VerifiableEigenAI.generate self options)
             = (seed_calls options ++ rest)%list
             /\ ~ In (Asked Math_random) rest).
  { unfold calls_of.
    destruct (VerifiableEigenAI.build_messages options) as [messages | ] eqn:E.
    - rewrite (eigen_generate_exec self options w E). cbn zeta.
      destruct (answer w _) as [response | fault]; cbn [fst];
        eexists; (split; [ reflexivity | ]); intros Hin; cbn in Hin;
        repeat (destruct Hin as [Hin | Hin]; [ discriminate | ]); exact Hin.
    - rewrite (eigen_generate_exec_not_provided self options w E). cbn [fst].
      exists []. split; [ symmetry; apply app_nil_r | intros [] ]. }
  destruct Hcalls as [rest [Hcalls Hrest]].
  split; [ | split ].
  - intros s Es. rewrite Hcalls. unfold seed_calls. rewrite Es. exact Hrest.
  - intros Es. exists rest. rewrite Hcalls. unfold seed_calls. rewrite Es.
    split; [ reflexivity | exact Hrest ].
  - intros Es E. rewrite (eigen_generate_exec_not_provided self options w E).
    unfold seed_calls. rewrite Es. reflexivity.
Qed.

End Reexecution.

Section Convenience.
Context {RT : JsRuntime}.

(** X15: [chat] of the transcript-proof client.  With no options and a
    non-empty prompt it dispatches one request whose body has the prompt
    as its single user message.  When the options carry [messages], the
    prompt is not used at all: any two prompts give the same run.  An
    empty prompt with no options, and an [options.prompt] key that is
    [undefined] without [messages], fail before dispatch. *)
Theorem transcript_chat_spreads_options_over_prompt
  (self : VerifiableClaude.t) (prompt : string) (w : World) :
  (prompt <> "" ->
   dispatched w (VerifiableClaude.chat self prompt None)
   = [zkFetch (VerifiableClaude.reclaimClient self)
        (VerifiableClaude.zkFetch_args self
           (JObj [("model", JStr "claude-3-5-sonnet-20241022");
                  ("max_tokens", JNum (num_of_Z 1024));
                  ("messages",
                     JArr [js_of_message
                             {| Message.role := user; Message.content := prompt |}]);
                  ("temperature", JNum (num_of_Z 1))]))])
  /\ (forall options other_prompt messages,
        ClaudeChatOptions.messages options = Some messages ->
        VerifiableClaude.chat self prompt (Some options)
        = VerifiableClaude.chat self other_prompt (Some options))
  /\ exec w (VerifiableClaude.chat self "" None)
     = ([], Threw (Error "Either 'messages' or 'prompt' must be provided"))
  /\ (forall options,
        ClaudeChatOptions.messages options = None ->
        ClaudeChatOptions.prompt options = Some None ->
        exec w (VerifiableClaude.chat self prompt (Some options))
        = ([], Threw (Error "Either 'messages' or 'prompt' must be provided"))).
Proof.
  split; [ | split; [ | split ] ].
  - intros Hprompt. unfold VerifiableClaude.chat.
    rewrite (@claude_generate_dispatched _ self _ w
               [{| Message.role := user; Message.content := prompt |}]).
    + reflexivity.
    + unfold VerifiableClaude.build_messages. cbn.
      destruct prompt; [ contradiction | reflexivity ].
  - intros options other_prompt messages E.
    unfold VerifiableClaude.chat, VerifiableClaude.generate,
      VerifiableClaude.build_messages.
    cbn [ClaudeGenerateOptions.messages]. rewrite E. reflexivity.
  - reflexivity.
  - intros options Em Ep.
    unfold VerifiableClaude.chat, VerifiableClaude.generate,
      VerifiableClaude.build_messages.
    cbn [ClaudeGenerateOptions.messages ClaudeGenerateOptions.prompt].
    rewrite Em, Ep. reflexivity.
Qed.

(** X16: [chat] of the re-execution client.  With no options and a
    non-empty prompt it draws a seed and dispatches one request whose only
    message is the prompt, from the user, at temperature 0, with 1024
    tokens and the default model.  When the options carry [messages], the
    prompt is not used at all.  An [options.prompt] key that is
    [undefined] without [messages] fails before dispatch. *)
Theorem reexecution_chat_spreads_options_over_prompt
  (self : VerifiableEigenAI.t) (prompt : string) (w : World) :
  (prompt <> "" ->
   dispatched w (VerifiableEigenAI.chat self prompt None)
   = [chat_completions_create (VerifiableEigenAI.client self)
        {| cr_model := JStr "gpt-oss-120b-f16";
           cr_messages := [{| cm_role := JStr "user"; cm_content := JStr prompt |}];
           cr_max_tokens := JNum (num_of_Z 1024);
           cr_temperature := JNum (num_of_Z 0);
           cr_seed :=
             JNum (VerifiableEigenAI.Math_floor
                     (VerifiableEigenAI.times_positive (builtin w Math_random)
                        (inject_Z 2147483647)));
           cr_stop := JUndefined |}])
  /\ (forall options other_prompt messages,
        EigenAIChatOptions.messages options = Some messages ->
        VerifiableEigenAI.chat self prompt (Some options)
        = VerifiableEigenAI.chat self other_prompt (Some options))
  /\ (forall options,
        EigenAIChatOptions.messages options = None ->
        EigenAIChatOptions.prompt options = Some None ->
        dispatched w (VerifiableEigenAI.chat self prompt (Some options)) = []
        /\ completion w (VerifiableEigenAI.chat self prompt (Some options))
           = Threw (Error "Either 'messages' or 'prompt' must be provided")).
Proof.
  split; [ | split ].
  - intros Hprompt. unfold VerifiableEigenAI.chat, dispatched, calls_of.
    rewrite (@eigen_generate_exec self _ w
               [{| Message.role := user; Message.content := prompt |}]).
    + cbn zeta. destruct (answer w _); reflexivity.
    + unfold VerifiableEigenAI.build_messages. cbn.
      destruct prompt; [ contradiction | reflexivity ].
  - intros options other_prompt messages E.
    unfold VerifiableEigenAI.chat, VerifiableEigenAI.generate,
      VerifiableEigenAI.build_messages.
    cbn [EigenAIGenerateOptions.messages]. rewrite E. reflexivity.
  - intros options Em Ep. apply eigen_generate_not_provided.
    unfold VerifiableEigenAI.build_messages.
    cbn [EigenAIGenerateOptions.messages EigenAIGenerateOptions.prompt].
    rewrite Em, Ep. reflexivity.
Qed.

(** X17: the type guards tell the results of the two clients apart.  A
    result [generate] of the transcript-proof client returns passes
    [isClaudeResult] and fails [isEigenAIResult]; a result [generate] of
    the re-execution client returns passes [isEigenAIResult] and fails
    [isClaudeResult]; and on every result exactly one guard holds. *)
Theorem type_guards_tell_generated_results_apart
  (claude : VerifiableClaude.t) (eigen : VerifiableEigenAI.t)
  (copts : ClaudeGenerateOptions.t) (eopts : EigenAIGenerateOptions.t) (w : World) :
  (forall r,
     completion w (VerifiableClaude.generate claude copts) = Ok r ->
     isClaudeResult (ClaudeResult r) = true /\ isEigenAIResult (ClaudeResult r) = false)
  /\ (forall r,
        completion w (VerifiableEigenAI.generate eigen eopts) = Ok r ->
        isEigenAIResult (EigenResult r) = true /\ isClaudeResult (EigenResult r) = false)
  /\ (forall result, isClaudeResult result = negb (isEigenAIResult result)).
Proof.
  split; [ | split ].
  - intros r. unfold completion.
    destruct (VerifiableClaude.build_messages copts) as [messages | ] eqn:E.
    + rewrite (claude_generate_exec claude copts w E). cbn zeta.
      destruct (answer w _) as [proof | fault]; cbn [snd]; [ | discriminate ].
      destruct (truthy proof); cbn [snd]; [ | discriminate ].
      destruct (decoded proof) as [[response text] | fault]; cbn [snd];
        [ | discriminate ].
      intros H. inversion H. split; reflexivity.
    + rewrite (claude_generate_not_provided claude copts E). discriminate.
  - intros r. unfold completion.
    destruct (VerifiableEigenAI.build_messages eopts) as [messages | ] eqn:E.
    + rewrite (eigen_generate_exec eigen eopts w E). cbn zeta.
      destruct (answer w _) as [response | fault]; cbn [snd]; [ | discriminate ].
      intros H. inversion H. split; reflexivity.
    + rewrite (eigen_generate_exec_not_provided eigen eopts w E). discriminate.
  - intros result. unfold isClaudeResult, isEigenAIResult.
    destruct (result_provider result); reflexivity.
Qed.

End Convenience.

(** ** Closed instances of the further properties *)



(** [generate] in [Demo.w] returns [Demo.claude_result]. *)
Lemma transcript_result_decoding_witness :
  decoded (RT := MiniJson.runtime) Demo.mockProof
  = Ok (Demo.response, JStr "The capital of France is Paris.").
Proof.
  apply (@transcript_result_is_decoded_from_its_proof MiniJson.runtime Demo.claude
           (Demo.claude_options None (Some "Hello")) Demo.w Demo.claude_result).
  vm_compute. reflexivity.
Defined.

(** A tool call, then two texts, then [null]. *)
Lemma first_text_item_witness :
  VerifiableClaude.extract_text Demo.mixed_response = Ok (JStr "first").
Proof.
  apply (text_is_taken_from_the_first_text_item
           [("id", JStr "msg_01ABC");
            ("content",
               JArr [JObj [("type", JStr "tool_use")];
                     JObj [("type", JStr "text"); ("text", JStr "first")];
                     JObj [("type", JStr "text"); ("text", JStr "second")];
                     JNull])]
           [("type", JStr "text"); ("text", JStr "first")]
           [JObj [("type", JStr "tool_use")]]
           [JObj [("type", JStr "text"); ("text", JStr "second")]; JNull]);
    reflexivity.
Defined.

(** A serialized proof that parses, and a truncated one. *)
Lemma transcript_verification_calls_witness :
  calls_of Demo.w
    (VerifiableClaude.verifySerializedProof (RT := MiniJson.runtime)
       (OfClaude Demo.claude_serialized))
  = [Awaited (verifyProof Demo.mockProof)]
  /\ calls_of Demo.w
       (VerifiableClaude.verifySerializedProof (RT := MiniJson.runtime)
          (OfClaude Demo.claude_truncated))
     = [].
Proof.
  destruct (@transcript_verification_calls_the_verifier_only MiniJson.runtime Demo.claude
              Demo.claude_result (OfClaude Demo.claude_serialized) Demo.w)
    as [_ [Hparsed _]].
  destruct (@transcript_verification_calls_the_verifier_only MiniJson.runtime Demo.claude
              Demo.claude_result (OfClaude Demo.claude_truncated) Demo.w)
    as [_ [_ Hfailed]].
  split.
  - apply Hparsed. vm_compute. reflexivity.
  - apply (Hfailed (SyntaxError "Unexpected token { in JSON at position 0")).
    vm_compute. reflexivity.
Defined.

(** The proxied client. *)
Lemma transcript_reported_url_witness :
  exists args,
    dispatched Demo.w
      (VerifiableClaude.generate (RT := MiniJson.runtime) Demo.proxied_claude
         (Demo.claude_options None (Some "Hello")))
    = [zkFetch (VerifiableClaude.reclaimClient Demo.proxied_claude) args]
    /\ forall res,
         completion Demo.w (VerifiableClaude.verify Demo.proxied_claude Demo.claude_result)
         = Ok res ->
         isValid res = true ->
         verifiedEndpoint res = Some (zk_url args).
Proof.
  apply (@transcript_verify_reports_the_url_generate_used MiniJson.runtime
           Demo.proxied_claude (Demo.claude_options None (Some "Hello"))
           [{| Message.role := user; Message.content := "Hello" |}]
           Demo.claude_result Demo.w Demo.w).
  reflexivity.
Defined.

(** Two API keys. *)
Lemma api_key_witness :
  exists args args',
    dispatched Demo.w
      (VerifiableClaude.generate (RT := MiniJson.runtime)
         (VerifiableClaude.constructor (Demo.claude_config None))
         (Demo.claude_options None (Some "Hello")))
    = [zkFetch (VerifiableClaude.reclaimClient
                  (VerifiableClaude.constructor (Demo.claude_config None))) args]
    /\ zk_body args = zk_body args'
    /\ zk_url args = zk_url args'
    /\ zk_secret_headers args'
       = [("anthropic-version", "2023-06-01"); ("x-api-key", "sk-ant-other")].
Proof.
  destruct (@api_key_is_confined_to_the_secret_headers MiniJson.runtime
              (Demo.claude_config None) "sk-ant-other"
              (Demo.claude_options None (Some "Hello"))
              [{| Message.role := user; Message.content := "Hello" |}] Demo.w Demo.w
              eq_refl)
    as [args [args' [Hd [_ [Hurl [_ [_ [Hbody [_ [_ [_ Hsecret]]]]]]]]]]].
  exists args, args'. repeat split; assumption.
Defined.

(** [generate] was given the stop sequence ["."]. *)
Lemma verify_replay_witness :
  exists req,
    dispatched Demo.w
      (VerifiableEigenAI.generate Demo.eigen (Demo.eigen_options_with_stop (Some ["."])))
    = [chat_completions_create (VerifiableEigenAI.client Demo.eigen) req]
    /\ cr_stop req = JArr [JStr "."]
    /\ dispatched Demo.w
         (VerifiableEigenAI.verify Demo.eigen
            (Demo.generated Demo.ask_2_plus_2 (num_of_Z 999)))
       = [chat_completions_create (VerifiableEigenAI.client Demo.eigen) (without_stop req)].
Proof.
  apply (verify_replays_generate_without_stop_sequences Demo.eigen
           (Demo.eigen_options_with_stop (Some ["."])) Demo.w Demo.w
           (result := Demo.generated Demo.ask_2_plus_2 (num_of_Z 999))).
  vm_compute. reflexivity.
Defined.

(** Generate, then verify. *)
Lemma generated_result_verifies_witness :
  completion Demo.w
    (VerifiableEigenAI.verify Demo.eigen (Demo.generated Demo.ask_2_plus_2 (num_of_Z 999)))
  = Ok Demo.matched.
Proof.
  apply (generated_result_verifies Demo.eigen (Demo.eigen_options_with_stop None) Demo.w
           (result := Demo.generated Demo.ask_2_plus_2 (num_of_Z 999))).
  - reflexivity.
  - vm_compute. reflexivity.
Defined.

(** Generate, serialize, hand to a third party. *)
Lemma third_party_replay_witness :
  exists req,
    dispatched Demo.w
      (VerifiableEigenAI.generate Demo.eigen (Demo.eigen_options_with_stop None))
    = [chat_completions_create (VerifiableEigenAI.client Demo.eigen) req]
    /\ dispatched Demo.w
         (VerifiableEigenAI.verifySerializedProof (RT := MiniJson.runtime) Demo.third_party
            (OfEigenAI
               (VerifiableEigenAI.serializeResult (RT := MiniJson.runtime) Demo.eigen
                  (Demo.generated Demo.ask_2_plus_2 (num_of_Z 999)))))
       = [chat_completions_create (VerifiableEigenAI.client Demo.third_party)
            (without_stop req)].
Proof.
  apply (@third_party_replays_the_generated_request MiniJson.runtime Demo.eigen
           Demo.third_party (Demo.eigen_options_with_stop None) Demo.w Demo.w
           (Demo.generated Demo.ask_2_plus_2 (num_of_Z 999))).
  - vm_compute. reflexivity.
  - vm_compute. reflexivity.
Defined.

(** The text ["4"] changed to ["5"]. *)
Lemma serialized_text_check_witness :
  isValid Demo.mismatch = false
  /\ error Demo.mismatch = None
  /\ reExecutedOutput Demo.mismatch = Some (SerializedEigenAIProof.text Demo.eigen_serialized).
Proof.
  apply (@serialized_reexecution_text_is_checked MiniJson.runtime Demo.eigen
           Demo.eigen_serialized Demo.eigen_tampered Demo.w Demo.matched).
  - reflexivity.
  - vm_compute. discriminate.
  - vm_compute. reflexivity.
  - vm_compute. reflexivity.
  - reflexivity.
Defined.

(** An attestation that is the empty object. *)
Lemma malformed_attestation_witness :
  calls_of Demo.w
    (VerifiableEigenAI.verifySerializedProof (RT := MiniJson.runtime) Demo.eigen
       (OfEigenAI Demo.eigen_empty_attestation))
  = [].
Proof.
  destruct (@malformed_attestation_never_reaches_the_provider MiniJson.runtime Demo.eigen
              (OfEigenAI Demo.eigen_empty_attestation) Demo.w)
    as [_ [H _]].
  apply (H (JObj [])
           (TypeError "Cannot read properties of undefined (reading 'messages')"));
    vm_compute; reflexivity.
Defined.

(** A supplied seed of zero, and no seed with no messages. *)
Lemma seed_draw_witness :
  ~ In (Asked Math_random)
      (calls_of Demo.w
         (VerifiableEigenAI.generate Demo.eigen
            (Demo.eigen_options None (Some "What is 2 + 2?") (Some (num_of_Z 0)))))
  /\ exec Demo.w (VerifiableEigenAI.generate Demo.eigen (Demo.eigen_options None None None))
     = ([Asked Math_random],
        Threw (Error "Either 'messages' or 'prompt' must be provided")).
Proof.
  split.
  - apply (proj1 (seed_is_drawn_only_when_absent Demo.eigen
                    (Demo.eigen_options None (Some "What is 2 + 2?") (Some (num_of_Z 0)))
                    Demo.w)
             (num_of_Z 0)).
    reflexivity.
  - apply (seed_is_drawn_only_when_absent Demo.eigen
             (Demo.eigen_options None None None) Demo.w);
      reflexivity.
Defined.

(** The prompt ["Hello"] beside a conversation, and beside an undefined
    [prompt] key. *)
Lemma transcript_chat_witness :
  VerifiableClaude.chat (RT := MiniJson.runtime) Demo.claude "Hello"
    (Some (Demo.claude_chat_options (Some Demo.ask_2_plus_2) None))
  = VerifiableClaude.chat (RT := MiniJson.runtime) Demo.claude "Goodbye"
      (Some (Demo.claude_chat_options (Some Demo.ask_2_plus_2) None))
  /\ exec Demo.w
       (VerifiableClaude.chat (RT := MiniJson.runtime) Demo.claude "Hello"
          (Some (Demo.claude_chat_options None (Some None))))
     = ([], Threw (Error "Either 'messages' or 'prompt' must be provided")).
Proof.
  destruct (@transcript_chat_spreads_options_over_prompt MiniJson.runtime Demo.claude
              "Hello" Demo.w)
    as [_ [Hmessages [_ Hundefined]]].
  split.
  - apply (Hmessages _ "Goodbye" Demo.ask_2_plus_2). reflexivity.
  - apply Hundefined; reflexivity.
Defined.

Lemma reexecution_chat_witness :
  dispatched Demo.w (VerifiableEigenAI.chat Demo.eigen "Hello" None)
  = [chat_completions_create (VerifiableEigenAI.client Demo.eigen)
       {| cr_model := JStr "gpt-oss-120b-f16";
          cr_messages := [{| cm_role := JStr "user"; cm_content := JStr "Hello" |}];
          cr_max_tokens := JNum (num_of_Z 1024);
          cr_temperature := JNum (num_of_Z 0);
          cr_seed :=
            JNum (VerifiableEigenAI.Math_floor
                    (VerifiableEigenAI.times_positive (builtin Demo.w Math_random)
                       (inject_Z 2147483647)));
          cr_stop := JUndefined |}]
  /\ VerifiableEigenAI.chat Demo.eigen "Hello"
       (Some (Demo.eigen_chat_options (Some Demo.ask_2_plus_2) None))
     = VerifiableEigenAI.chat Demo.eigen "Goodbye"
         (Some (Demo.eigen_chat_options (Some Demo.ask_2_plus_2) None)).
Proof.
  destruct (reexecution_chat_spreads_options_over_prompt Demo.eigen "Hello" Demo.w)
    as [Hprompt [Hmessages _]].
  split.
  - apply Hprompt. discriminate.
  - apply (Hmessages _ "Goodbye" Demo.ask_2_plus_2). reflexivity.
Defined.

Lemma type_guards_witness :
  isClaudeResult (ClaudeResult Demo.claude_result) = true
  /\ isEigenAIResult (ClaudeResult Demo.claude_result) = false.
Proof.
  apply (@type_guards_tell_generated_results_apart MiniJson.runtime Demo.claude Demo.eigen
           (Demo.claude_options None (Some "Hello"))
           (Demo.eigen_options_with_stop None) Demo.w).
  vm_compute. reflexivity.
Defined.
